(** * The WebGL coloured cube scripts, embedded in Rocq

    The repository holds two browser scripts that are near copies of one
    another:
      - [src/script.js]: one quad (the front face), no tint;
      - [unnamed/part_000]: two quads (front and back face) and a tint
        colour that changes with time.

    A script talks to three things it does not own: the WebGL context [gl],
    the page ([canvas], [Date.now], [console], [requestAnimationFrame]) and
    the matrix library [mat4].  The embedding keeps the scripts' functions
    as they are written and threads the state of the context and of the
    page through them; everything a function does to its environment is
    appended, in order, to a trace.  A call can throw: the run of a script
    ends either normally or with the exception, as in the language.

    JavaScript numbers are read as real numbers: rounding is not modelled. *)

From Stdlib Require Import Reals Lra Lia ZArith List String.
From stdpp Require Import gmap strings list.
Import ListNotations.

Local Open Scope R_scope.

(* ===================================================================== *)
(** ** The matrix library *)
(* ===================================================================== *)

(** [mat4] is the gl-matrix module the scripts call: a matrix is an array of
    sixteen numbers in column-major order.  The functions write their result
    into the array passed first and the scripts always pass the array they
    transform, so each function is given as the new content of that array. *)
Module mat4.

Definition get (a : list R) (i : nat) : R := nth i a 0.

(** [mat4.create()]: the identity. *)
Definition create : list R :=
  [ 1; 0; 0; 0;
    0; 1; 0; 0;
    0; 0; 1; 0;
    0; 0; 0; 1 ].

(** [mat4.perspective(out, fovy, aspect, near, far)] with a finite [far]. *)
Definition perspective (out : list R) (fovy aspect near far : R) : list R :=
  let f := 1 / tan (fovy / 2) in
  let nf := 1 / (near - far) in
  [ f / aspect; 0; 0; 0;
    0; f; 0; 0;
    0; 0; (far + near) * nf; -1;
    0; 0; 2 * far * near * nf; 0 ].

(** [mat4.translate(out, a, v)] with [out === a]: only the last column
    changes. *)
Definition translate (a : list R) (v : list R) : list R :=
  let x := nth 0 v 0 in
  let y := nth 1 v 0 in
  let z := nth 2 v 0 in
  [ get a 0; get a 1; get a 2; get a 3;
    get a 4; get a 5; get a 6; get a 7;
    get a 8; get a 9; get a 10; get a 11;
    get a 0 * x + get a 4 * y + get a 8 * z + get a 12;
    get a 1 * x + get a 5 * y + get a 9 * z + get a 13;
    get a 2 * x + get a 6 * y + get a 10 * z + get a 14;
    get a 3 * x + get a 7 * y + get a 11 * z + get a 15 ].

Definition EPSILON : R := 0.000001.

(** [mat4.rotate(out, a, rad, axis)] with [out === a].  An axis shorter
    than [EPSILON] makes the library return [null] and leave the array
    alone; otherwise the axis is normalised and the first three columns
    are multiplied by the rotation. *)
Definition rotate (a : list R) (rad : R) (axis : list R) : list R :=
  let x := nth 0 axis 0 in
  let y := nth 1 axis 0 in
  let z := nth 2 axis 0 in
  let len := sqrt (x * x + y * y + z * z) in
  if Rlt_dec len EPSILON then a
  else
    let len := 1 / len in
    let x := x * len in
    let y := y * len in
    let z := z * len in
    let s := sin rad in
    let c := cos rad in
    let t := 1 - c in
    let a00 := get a 0 in let a01 := get a 1 in
    let a02 := get a 2 in let a03 := get a 3 in
    let a10 := get a 4 in let a11 := get a 5 in
    let a12 := get a 6 in let a13 := get a 7 in
    let a20 := get a 8 in let a21 := get a 9 in
    let a22 := get a 10 in let a23 := get a 11 in
    let b00 := x * x * t + c in
    let b01 := y * x * t + z * s in
    let b02 := z * x * t - y * s in
    let b10 := x * y * t - z * s in
    let b11 := y * y * t + c in
    let b12 := z * y * t + x * s in
    let b20 := x * z * t + y * s in
    let b21 := y * z * t - x * s in
    let b22 := z * z * t + c in
    [ a00 * b00 + a10 * b01 + a20 * b02;
      a01 * b00 + a11 * b01 + a21 * b02;
      a02 * b00 + a12 * b01 + a22 * b02;
      a03 * b00 + a13 * b01 + a23 * b02;
      a00 * b10 + a10 * b11 + a20 * b12;
      a01 * b10 + a11 * b11 + a21 * b12;
      a02 * b10 + a12 * b11 + a22 * b12;
      a03 * b10 + a13 * b11 + a23 * b12;
      a00 * b20 + a10 * b21 + a20 * b22;
      a01 * b20 + a11 * b21 + a21 * b22;
      a02 * b20 + a12 * b21 + a22 * b22;
      a03 * b20 + a13 * b21 + a23 * b22;
      get a 12; get a 13; get a 14; get a 15 ].

(** The product [a * b] of two column-major matrices and the image of a
    column vector; used to state what the scripts' matrices are. *)
Definition entry (a b : list R) (col row : nat) : R :=
  get a row * get b (4 * col)
  + get a (4 + row) * get b (4 * col + 1)
  + get a (8 + row) * get b (4 * col + 2)
  + get a (12 + row) * get b (4 * col + 3).

Definition mul (a b : list R) : list R :=
  [ entry a b 0 0; entry a b 0 1; entry a b 0 2; entry a b 0 3;
    entry a b 1 0; entry a b 1 1; entry a b 1 2; entry a b 1 3;
    entry a b 2 0; entry a b 2 1; entry a b 2 2; entry a b 2 3;
    entry a b 3 0; entry a b 3 1; entry a b 3 2; entry a b 3 3 ].

(** The translation by [(x, y, z)] and the rotation about the Y axis by
    [rad], as matrices. *)
Definition translation (x y z : R) : list R :=
  [ 1; 0; 0; 0;
    0; 1; 0; 0;
    0; 0; 1; 0;
    x; y; z; 1 ].

Definition rotationY (rad : R) : list R :=
  [ cos rad; 0; - sin rad; 0;
    0; 1; 0; 0;
    sin rad; 0; cos rad; 0;
    0; 0; 0; 1 ].

End mat4.

(* ===================================================================== *)
(** ** The WebGL context *)
(* ===================================================================== *)

(** The enumerants the scripts name. *)
Inductive ShaderType := VERTEX_SHADER | FRAGMENT_SHADER.
Inductive BufferTarget := ARRAY_BUFFER | ELEMENT_ARRAY_BUFFER.
Inductive Usage := STATIC_DRAW.
Inductive Capability := DEPTH_TEST.
Inductive DrawMode := TRIANGLES.
Inductive DataType := FLOAT | UNSIGNED_SHORT.
Inductive ShaderParameter := COMPILE_STATUS.
Inductive ProgramParameter := LINK_STATUS.

(** The size of a component, in bytes. *)
Definition sizeof (t : DataType) : Z :=
  match t with
  | FLOAT => 4
  | UNSIGNED_SHORT => 2
  end.

(** The two clear bits are combined with [|], so they keep their values. *)
Definition COLOR_BUFFER_BIT : Z := 16384.
Definition DEPTH_BUFFER_BIT : Z := 256.

(** Objects of the context are named by the order of their creation. *)
Record ShaderObject := {
  shader_type : ShaderType;
  shader_source : string;
  compile_status : bool;
  shader_info_log : string;
  delete_status : bool
}.

Record ProgramObject := {
  attached_shaders : list nat;
  link_status : bool;
  program_info_log : string
}.

(** What a typed array holds. *)
Inductive TypedArray :=
| Float32Array (data : list R)
| Uint16Array (data : list Z).

(** The only callback the scripts register. *)
Inductive Callback := render_callback.

(** Every call a script makes on its environment, with its arguments.  A
    [null] object argument is [None]. *)
Inductive Event :=
| CreateShader (type : ShaderType)
| ShaderSource (shader : nat) (source : string)
| CompileShader (shader : nat)
| GetShaderParameter (shader : nat) (pname : ShaderParameter)
| GetShaderInfoLog (shader : nat)
| DeleteShader (shader : nat)
| CreateProgram
| AttachShader (program : nat) (shader : option nat)
| LinkProgram (program : nat)
| GetProgramParameter (program : nat) (pname : ProgramParameter)
| GetProgramInfoLog (program : nat)
| GetAttribLocation (program : option nat) (name : string)
| GetUniformLocation (program : option nat) (name : string)
| CreateBuffer
| BindBuffer (target : BufferTarget) (buffer : nat)
| BufferData (target : BufferTarget) (data : TypedArray) (usage : Usage)
| ClearColor (r g b a : R)
| Clear (mask : Z)
| Enable (cap : Capability)
| UseProgram (program : option nat)
| UniformMatrix4fv (location : option nat) (transpose : bool) (value : list R)
| Uniform4fv (location : option nat) (value : list R)
| VertexAttribPointer (index : Z) (size : Z) (type : DataType)
    (normalized : bool) (stride offset : Z)
| EnableVertexAttribArray (index : Z)
| DrawElements (mode : DrawMode) (count : nat) (type : DataType) (offset : Z)
| ConsoleError (message diagnostic : string)
| RequestAnimationFrame (callback : Callback).

(** The state of the context and of the page. *)
Record World := {
  next_name : nat;
  shaders : gmap nat ShaderObject;
  programs : gmap nat ProgramObject;
  buffers_data : gmap nat TypedArray;
  bound : BufferTarget -> option nat;
  clock_reads : nat;
  frame_requests : list Callback;
  trace : list Event
}.

Definition initial_world : World :=
  {| next_name := 0;
     shaders := ∅;
     programs := ∅;
     buffers_data := ∅;
     bound := fun _ => None;
     clock_reads := 0;
     frame_requests := [];
     trace := [] |}.

(** What the page and the graphics driver decide: the verdict and the
    diagnostic of the shader compiler and of the linker, where the linker
    puts attributes and uniforms, what the clock shows at each reading (in
    milliseconds) and the size of the canvas. *)
Record Platform := {
  glsl_compile : ShaderType -> string -> bool * string;
  glsl_link : list ShaderObject -> bool * string;
  attrib_location : ProgramObject -> string -> Z;
  uniform_location : ProgramObject -> string -> option nat;
  clock : nat -> R;
  canvas_width : Z;
  canvas_height : Z
}.

(** *** Running a script: state passing and exceptions *)

(** The only exception the scripts can meet. *)
Inductive Exception := TypeError.

(** How a piece of script ends: with a value, or by throwing. *)
Inductive Completion (A : Type) :=
| Normal (a : A)
| Throw (e : Exception).

Arguments Normal {A} a.
Arguments Throw {A} e.

Definition GLM (A : Type) : Type := World -> Completion A * World.

Definition ret {A} (a : A) : GLM A := fun w => (Normal a, w).

Definition throw {A} (e : Exception) : GLM A := fun w => (Throw e, w).

(** What follows a call that threw is not run. *)
Definition bind {A B} (m : GLM A) (k : A -> GLM B) : GLM B :=
  fun w =>
    match m w with
    | (Normal a, w') => k a w'
    | (Throw e, w') => (Throw e, w')
    end.

(** A callback the page calls: an exception it throws is reported and goes
    no further. *)
Definition isolate {A} (m : GLM A) : GLM unit :=
  fun w => (Normal tt, snd (m w)).

Notation "x <- m ;; k" := (bind m (fun x => k))
  (at level 100, m at next level, right associativity).
Notation "m ;; k" := (bind m (fun _ => k))
  (at level 100, right associativity).

Definition result {A} (m : GLM A) (w : World) : Completion A := fst (m w).
Definition after {A} (m : GLM A) (w : World) : World := snd (m w).

Definition set_trace (t : list Event) (w : World) : World :=
  {| next_name := next_name w; shaders := shaders w; programs := programs w;
     buffers_data := buffers_data w; bound := bound w;
     clock_reads := clock_reads w; frame_requests := frame_requests w;
     trace := t |}.

Definition set_next_name (n : nat) (w : World) : World :=
  {| next_name := n; shaders := shaders w; programs := programs w;
     buffers_data := buffers_data w; bound := bound w;
     clock_reads := clock_reads w; frame_requests := frame_requests w;
     trace := trace w |}.

Definition set_shaders (s : gmap nat ShaderObject) (w : World) : World :=
  {| next_name := next_name w; shaders := s; programs := programs w;
     buffers_data := buffers_data w; bound := bound w;
     clock_reads := clock_reads w; frame_requests := frame_requests w;
     trace := trace w |}.

Definition set_programs (p : gmap nat ProgramObject) (w : World) : World :=
  {| next_name := next_name w; shaders := shaders w; programs := p;
     buffers_data := buffers_data w; bound := bound w;
     clock_reads := clock_reads w; frame_requests := frame_requests w;
     trace := trace w |}.

Definition set_buffers_data (b : gmap nat TypedArray) (w : World) : World :=
  {| next_name := next_name w; shaders := shaders w; programs := programs w;
     buffers_data := b; bound := bound w;
     clock_reads := clock_reads w; frame_requests := frame_requests w;
     trace := trace w |}.

Definition set_bound (b : BufferTarget -> option nat) (w : World) : World :=
  {| next_name := next_name w; shaders := shaders w; programs := programs w;
     buffers_data := buffers_data w; bound := b;
     clock_reads := clock_reads w; frame_requests := frame_requests w;
     trace := trace w |}.

Definition set_clock_reads (n : nat) (w : World) : World :=
  {| next_name := next_name w; shaders := shaders w; programs := programs w;
     buffers_data := buffers_data w; bound := bound w;
     clock_reads := n; frame_requests := frame_requests w;
     trace := trace w |}.

Definition set_frame_requests (r : list Callback) (w : World) : World :=
  {| next_name := next_name w; shaders := shaders w; programs := programs w;
     buffers_data := buffers_data w; bound := bound w;
     clock_reads := clock_reads w; frame_requests := r;
     trace := trace w |}.

(** A call is recorded when it is made. *)
Definition emit (e : Event) : GLM unit :=
  fun w => (Normal tt, set_trace (trace w ++ [e]) w).

Definition modify (f : World -> World) : GLM unit :=
  fun w => (Normal tt, f w).

Definition gets {A} (f : World -> A) : GLM A := fun w => (Normal (f w), w).

Definition fresh : GLM nat :=
  fun w => (Normal (next_name w), set_next_name (S (next_name w)) w).

(** *** The entry points of [gl] the scripts use

    The page is one whose canvas gave a context, so the [alert] of the other
    case is left out.  The context is a working one.  Three of its entry
    points are handed an object that may be [null] by the scripts:
    [attachShader] (the stage), [getAttribLocation] and [getUniformLocation]
    (the program).  None of them takes [null]: the call throws a
    [TypeError] and has no other effect; it is the last call of the run.
    [useProgram] and the uniform setters do take [null]. *)

Definition target_eqb (a b : BufferTarget) : bool :=
  match a, b with
  | ARRAY_BUFFER, ARRAY_BUFFER => true
  | ELEMENT_ARRAY_BUFFER, ELEMENT_ARRAY_BUFFER => true
  | _, _ => false
  end.

Definition gl_createShader (type : ShaderType) : GLM nat :=
  emit (CreateShader type) ;;
  s <- fresh ;;
  modify (fun w => set_shaders
    (<[s := {| shader_type := type; shader_source := EmptyString;
               compile_status := false; shader_info_log := EmptyString;
               delete_status := false |}]> (shaders w)) w) ;;
  ret s.

Definition gl_shaderSource (s : nat) (source : string) : GLM unit :=
  emit (ShaderSource s source) ;;
  modify (fun w => set_shaders
    (alter (fun o => {| shader_type := shader_type o; shader_source := source;
                        compile_status := compile_status o;
                        shader_info_log := shader_info_log o;
                        delete_status := delete_status o |}) s (shaders w)) w).

Definition gl_getShaderParameter (s : nat) (pname : ShaderParameter)
  : GLM bool :=
  emit (GetShaderParameter s pname) ;;
  gets (fun w => match shaders w !! s with
                 | Some o => match pname with COMPILE_STATUS => compile_status o end
                 | None => false
                 end).

Definition gl_getShaderInfoLog (s : nat) : GLM string :=
  emit (GetShaderInfoLog s) ;;
  gets (fun w => match shaders w !! s with
                 | Some o => shader_info_log o
                 | None => EmptyString
                 end).

(** [deleteShader] flags the object for deletion. *)
Definition gl_deleteShader (s : nat) : GLM unit :=
  emit (DeleteShader s) ;;
  modify (fun w => set_shaders
    (alter (fun o => {| shader_type := shader_type o;
                        shader_source := shader_source o;
                        compile_status := compile_status o;
                        shader_info_log := shader_info_log o;
                        delete_status := true |}) s (shaders w)) w).

Definition gl_createProgram : GLM nat :=
  emit CreateProgram ;;
  p <- fresh ;;
  modify (fun w => set_programs
    (<[p := {| attached_shaders := []; link_status := false;
               program_info_log := EmptyString |}]> (programs w)) w) ;;
  ret p.

Definition gl_attachShader (p : nat) (s : option nat) : GLM unit :=
  emit (AttachShader p s) ;;
  match s with
  | Some s =>
      modify (fun w => set_programs
        (alter (fun o => {| attached_shaders := attached_shaders o ++ [s];
                            link_status := link_status o;
                            program_info_log := program_info_log o |})
               p (programs w)) w)
  | None => throw TypeError
  end.

Definition gl_getProgramParameter (p : nat) (pname : ProgramParameter)
  : GLM bool :=
  emit (GetProgramParameter p pname) ;;
  gets (fun w => match programs w !! p with
                 | Some o => match pname with LINK_STATUS => link_status o end
                 | None => false
                 end).

Definition gl_getProgramInfoLog (p : nat) : GLM string :=
  emit (GetProgramInfoLog p) ;;
  gets (fun w => match programs w !! p with
                 | Some o => program_info_log o
                 | None => EmptyString
                 end).

Definition gl_createBuffer : GLM nat :=
  emit CreateBuffer ;;
  fresh.

Definition gl_bindBuffer (target : BufferTarget) (b : nat) : GLM unit :=
  emit (BindBuffer target b) ;;
  modify (fun w => set_bound
    (fun t => if target_eqb t target then Some b else bound w t) w).

(** [bufferData] copies the array into the buffer bound to the target. *)
Definition gl_bufferData (target : BufferTarget) (data : TypedArray)
  (usage : Usage) : GLM unit :=
  emit (BufferData target data usage) ;;
  modify (fun w => match bound w target with
                   | Some b => set_buffers_data (<[b := data]> (buffers_data w)) w
                   | None => w
                   end).

Definition gl_clearColor (r g b a : R) : GLM unit := emit (ClearColor r g b a).
Definition gl_clear (mask : Z) : GLM unit := emit (Clear mask).
Definition gl_enable (cap : Capability) : GLM unit := emit (Enable cap).
Definition gl_useProgram (p : option nat) : GLM unit := emit (UseProgram p).

Definition gl_uniformMatrix4fv (location : option nat) (transpose : bool)
  (value : list R) : GLM unit :=
  emit (UniformMatrix4fv location transpose value).

Definition gl_uniform4fv (location : option nat) (value : list R) : GLM unit :=
  emit (Uniform4fv location value).

Definition gl_vertexAttribPointer (index size : Z) (type : DataType)
  (normalized : bool) (stride offset : Z) : GLM unit :=
  emit (VertexAttribPointer index size type normalized stride offset).

Definition gl_enableVertexAttribArray (index : Z) : GLM unit :=
  emit (EnableVertexAttribArray index).

Definition gl_drawElements (mode : DrawMode) (count : nat) (type : DataType)
  (offset : Z) : GLM unit :=
  emit (DrawElements mode count type offset).

(** *** The entry points of the page *)

Definition console_error (message diagnostic : string) : GLM unit :=
  emit (ConsoleError message diagnostic).

Definition requestAnimationFrame (cb : Callback) : GLM unit :=
  emit (RequestAnimationFrame cb) ;;
  modify (fun w => set_frame_requests (frame_requests w ++ [cb]) w).

(* ===================================================================== *)
(** ** The scripts *)
(* ===================================================================== *)

(** The two scripts: [script_js] is [src/script.js] (one face), [part_000]
    is [unnamed/part_000] (two faces and the tint). *)
Inductive Script := script_js | part_000.

Definition vertexShaderSource : string := "
    attribute vec4 aPosition;
    attribute vec4 aColor;
    uniform mat4 uModelViewMatrix;
    uniform mat4 uProjectionMatrix;
    varying lowp vec4 vColor;

    void main(void) {
        gl_Position = uProjectionMatrix * uModelViewMatrix * aPosition;
        vColor = aColor;
    }
"%string.

Definition fragmentShaderSource (v : Script) : string :=
  match v with
  | script_js => "
    varying lowp vec4 vColor;

    void main(void) {
        gl_FragColor = vColor;
    }
"%string
  | part_000 => "
    precision mediump float;
    varying lowp vec4 vColor;
    uniform vec4 uColor;

    void main(void) {
        gl_FragColor = vColor * uColor; // Multiply base color with dynamic color
    }
"%string
  end.

(** The vertex array: position and colour of each vertex, interleaved. *)
Definition positions (v : Script) : list R :=
  match v with
  | script_js =>
      [ -1.0; -1.0;  1.0;  1.0; 0.0; 0.0;
        1.0; -1.0;  1.0;  1.0; 0.0; 0.0;
        1.0;  1.0;  1.0;  1.0; 0.0; 0.0;
        -1.0;  1.0;  1.0;  1.0; 0.0; 0.0 ]
  | part_000 =>
      [ -1.0; -1.0;  1.0;  0.0; 1.0; 1.0;
        1.0; -1.0;  1.0;  0.0; 1.0; 1.0;
        1.0;  1.0;  1.0;  0.0; 1.0; 1.0;
        -1.0;  1.0;  1.0;  0.0; 1.0; 1.0;
        -1.0; -1.0; -1.0; 1.0; 0.0; 0.0;
        1.0; -1.0; -1.0; 1.0; 0.0; 0.0;
        1.0;  1.0; -1.0; 1.0; 0.0; 0.0;
        -1.0;  1.0; -1.0; 1.0; 0.0; 0.0 ]
  end.

Definition indices (v : Script) : list Z :=
  match v with
  | script_js =>
      [ 0; 1; 2;    0; 2; 3 ]%Z
  | part_000 =>
      [ 0; 1; 2;    0; 2; 3;
        4; 5; 6;    4; 6; 7 ]%Z
  end.

(** The objects the scripts keep at top level. *)
Module attribLocations.
Record t := { vertexPosition : Z; vertexColor : Z }.
End attribLocations.

(** [uColor] is a property of the two-face script's object only; the
    one-face script never reads it. *)
Module uniformLocations.
Record t := {
  projectionMatrix : option nat;
  modelViewMatrix : option nat;
  uColor : option nat
}.
End uniformLocations.

Module programInfo.
Record t := {
  attribLocations : attribLocations.t;
  uniformLocations : uniformLocations.t
}.
End programInfo.

Module buffers.
Record t := { position : nat; indices : nat }.
End buffers.

Module globals.
Record t := {
  shaderProgram : option nat;
  programInfo : programInfo.t;
  buffers : buffers.t
}.
End globals.

Section Scripts.

Variable P : Platform.

(** *** Entry points whose answer the platform decides *)

Definition gl_compileShader (s : nat) : GLM unit :=
  emit (CompileShader s) ;;
  modify (fun w => set_shaders
    (alter (fun o =>
              let (ok, log) := glsl_compile P (shader_type o) (shader_source o) in
              {| shader_type := shader_type o;
                 shader_source := shader_source o;
                 compile_status := ok;
                 shader_info_log := log;
                 delete_status := delete_status o |}) s (shaders w)) w).

Definition gl_linkProgram (p : nat) : GLM unit :=
  emit (LinkProgram p) ;;
  modify (fun w => set_programs
    (alter (fun o =>
              let (ok, log) :=
                glsl_link P (omap (fun s => shaders w !! s) (attached_shaders o)) in
              {| attached_shaders := attached_shaders o;
                 link_status := ok;
                 program_info_log := log |})
           p (programs w)) w).

Definition gl_getAttribLocation (p : option nat) (name : string) : GLM Z :=
  emit (GetAttribLocation p name) ;;
  match p with
  | Some p =>
      gets (fun w => match programs w !! p with
                     | Some o => attrib_location P o name
                     | None => (-1)%Z
                     end)
  | None => throw TypeError
  end.

Definition gl_getUniformLocation (p : option nat) (name : string)
  : GLM (option nat) :=
  emit (GetUniformLocation p name) ;;
  match p with
  | Some p =>
      gets (fun w => match programs w !! p with
                     | Some o => uniform_location P o name
                     | None => None
                     end)
  | None => throw TypeError
  end.

(** [Date.now()]: the next reading of the clock. *)
Definition Date_now : GLM R :=
  fun w =>
    (Normal (clock P (clock_reads w)), set_clock_reads (S (clock_reads w)) w).

(** *** Pipeline setup *)

Definition createShader (type : ShaderType) (source : string)
  : GLM (option nat) :=
  shader <- gl_createShader type ;;
  gl_shaderSource shader source ;;
  gl_compileShader shader ;;
  ok <- gl_getShaderParameter shader COMPILE_STATUS ;;
  if negb ok then
    log <- gl_getShaderInfoLog shader ;;
    console_error "Shader compilation failed:" log ;;
    gl_deleteShader shader ;;
    ret None
  else
    ret (Some shader).

Definition initShaderProgram (vertexSource fragmentSource : string)
  : GLM (option nat) :=
  vertexShader <- createShader VERTEX_SHADER vertexSource ;;
  fragmentShader <- createShader FRAGMENT_SHADER fragmentSource ;;
  shaderProgram <- gl_createProgram ;;
  gl_attachShader shaderProgram vertexShader ;;
  gl_attachShader shaderProgram fragmentShader ;;
  gl_linkProgram shaderProgram ;;
  ok <- gl_getProgramParameter shaderProgram LINK_STATUS ;;
  if negb ok then
    log <- gl_getProgramInfoLog shaderProgram ;;
    console_error "Shader program linking failed:" log ;;
    ret None
  else
    ret (Some shaderProgram).

(** *** Geometry upload *)

Definition initBuffers (v : Script) : GLM buffers.t :=
  positionBuffer <- gl_createBuffer ;;
  gl_bindBuffer ARRAY_BUFFER positionBuffer ;;
  gl_bufferData ARRAY_BUFFER (Float32Array (positions v)) STATIC_DRAW ;;
  indexBuffer <- gl_createBuffer ;;
  gl_bindBuffer ELEMENT_ARRAY_BUFFER indexBuffer ;;
  gl_bufferData ELEMENT_ARRAY_BUFFER (Uint16Array (indices v)) STATIC_DRAW ;;
  ret {| buffers.position := positionBuffer; buffers.indices := indexBuffer |}.

(** *** The frame *)

(** Only in [part_000]. *)
Definition getDynamicColor : GLM (list R) :=
  now <- Date_now ;;
  let time := now * 0.001 in
  let red := (sin time + 1) / 2 in
  let green := (cos time + 1) / 2 in
  let blue := (sin (time * 0.5) + 1) / 2 in
  ret [red; green; blue; 1.0].

(** [drawScene] reads the top-level [shaderProgram], [canvas] and [indices]
    besides its arguments. *)
Definition drawScene (v : Script) (shaderProgram : option nat)
  (programInfo : programInfo.t) (buffers : buffers.t) : GLM unit :=
  let attribs := programInfo.attribLocations programInfo in
  let uniforms := programInfo.uniformLocations programInfo in
  gl_clearColor 0.0 0.0 0.0 1.0 ;;
  gl_clear (Z.lor COLOR_BUFFER_BIT DEPTH_BUFFER_BIT) ;;
  gl_enable DEPTH_TEST ;;
  let projectionMatrix := mat4.create in
  let modelViewMatrix := mat4.create in
  let projectionMatrix :=
    mat4.perspective projectionMatrix (PI / 4)
      (IZR (canvas_width P) / IZR (canvas_height P)) 0.1 100.0 in
  let modelViewMatrix := mat4.translate modelViewMatrix [0.0; 0.0; -6.0] in
  now <- Date_now ;;
  let modelViewMatrix := mat4.rotate modelViewMatrix (now * 0.001) [0; 1; 0] in
  gl_useProgram shaderProgram ;;
  gl_uniformMatrix4fv (uniformLocations.projectionMatrix uniforms) false
    projectionMatrix ;;
  gl_uniformMatrix4fv (uniformLocations.modelViewMatrix uniforms) false
    modelViewMatrix ;;
  match v with
  | script_js => ret tt
  | part_000 =>
      dynamicColor <- getDynamicColor ;;
      gl_uniform4fv (uniformLocations.uColor uniforms) dynamicColor
  end ;;
  gl_bindBuffer ARRAY_BUFFER (buffers.position buffers) ;;
  gl_vertexAttribPointer (attribLocations.vertexPosition attribs) 3 FLOAT false
    (6 * 4) 0 ;;
  gl_enableVertexAttribArray (attribLocations.vertexPosition attribs) ;;
  gl_vertexAttribPointer (attribLocations.vertexColor attribs) 3 FLOAT false
    (6 * 4) (3 * 4) ;;
  gl_enableVertexAttribArray (attribLocations.vertexColor attribs) ;;
  gl_bindBuffer ELEMENT_ARRAY_BUFFER (buffers.indices buffers) ;;
  gl_drawElements TRIANGLES (length (indices v)) UNSIGNED_SHORT 0.

Definition render (v : Script) (g : globals.t) : GLM unit :=
  drawScene v (globals.shaderProgram g) (globals.programInfo g)
    (globals.buffers g) ;;
  requestAnimationFrame render_callback.

(** *** The whole page *)

(** The top level of a script, up to and including its call of [render]. *)
Definition main (v : Script) : GLM globals.t :=
  shaderProgram <- initShaderProgram vertexShaderSource (fragmentShaderSource v) ;;
  vertexPosition <- gl_getAttribLocation shaderProgram "aPosition" ;;
  vertexColor <- gl_getAttribLocation shaderProgram "aColor" ;;
  projectionMatrix <- gl_getUniformLocation shaderProgram "uProjectionMatrix" ;;
  modelViewMatrix <- gl_getUniformLocation shaderProgram "uModelViewMatrix" ;;
  uColor <- match v with
            | script_js => ret None
            | part_000 => gl_getUniformLocation shaderProgram "uColor"
            end ;;
  buffers <- initBuffers v ;;
  let g :=
    {| globals.shaderProgram := shaderProgram;
       globals.programInfo :=
         {| programInfo.attribLocations :=
              {| attribLocations.vertexPosition := vertexPosition;
                 attribLocations.vertexColor := vertexColor |};
            programInfo.uniformLocations :=
              {| uniformLocations.projectionMatrix := projectionMatrix;
                 uniformLocations.modelViewMatrix := modelViewMatrix;
                 uniformLocations.uColor := uColor |} |};
       globals.buffers := buffers |} in
  render v g ;;
  ret g.

(** Before a repaint the page takes the callbacks registered so far and
    calls them in order; what they register is for the next repaint. *)
Fixpoint run_callbacks (v : Script) (g : globals.t) (cbs : list Callback)
  : GLM unit :=
  match cbs with
  | [] => ret tt
  | render_callback :: rest =>
      isolate (render v g) ;; run_callbacks v g rest
  end.

Definition animation_frame (v : Script) (g : globals.t) : GLM unit :=
  cbs <- gets frame_requests ;;
  modify (set_frame_requests []) ;;
  run_callbacks v g cbs.

Fixpoint animation_frames (v : Script) (g : globals.t) (n : nat) : GLM unit :=
  match n with
  | O => ret tt
  | S n => animation_frame v g ;; animation_frames v g n
  end.

(** The script, then [n] repaints.  A script that threw has not reached its
    call of [render]: nothing is registered and the repaints find nothing
    to call. *)
Definition page (v : Script) (n : nat) : GLM unit :=
  g <- main v ;;
  animation_frames v g n.

End Scripts.

(* ===================================================================== *)
(** ** Reading a run *)
(* ===================================================================== *)

(** The calls a computation adds to the trace. *)
Definition events {A} (m : GLM A) (w : World) : list Event :=
  drop (length (trace w)) (trace (after m w)).

(** The outline of a trace keeps the attempts to build the pipeline and the
    two calls that matter in a frame. *)
Inductive Step :=
| Compile
| Link
| Use (program : option nat)
| Draw (mode : DrawMode) (count : nat) (type : DataType) (offset : Z).

Definition outline (e : Event) : option Step :=
  match e with
  | CompileShader _ => Some Compile
  | LinkProgram _ => Some Link
  | UseProgram p => Some (Use p)
  | DrawElements mode count type offset => Some (Draw mode count type offset)
  | _ => None
  end.

(** The matrices a trace uploads, with the uniform they go to. *)
Definition uniform_upload (e : Event) : option (option nat * list R) :=
  match e with
  | UniformMatrix4fv location _ value => Some (location, value)
  | _ => None
  end.

(** The angle [drawScene] hands to [mat4.rotate] when the clock shows [now]
    milliseconds, and the aspect ratio it hands to [mat4.perspective]. *)
Definition rotation_angle (now : R) : R := now * 0.001.

Definition aspect (P : Platform) : R :=
  IZR (canvas_width P) / IZR (canvas_height P).

(** An object of the context is discarded once it is flagged for deletion. *)
Definition shader_discarded (w : World) (s : nat) : Prop :=
  delete_status <$> shaders w !! s = Some true.

(** The object of a stage once the compiler has answered [c]; a rejected
    stage is deleted by [createShader]. *)
Definition stage_object (type : ShaderType) (source : string)
  (c : bool * string) : ShaderObject :=
  {| shader_type := type; shader_source := source;
     compile_status := fst c; shader_info_log := snd c;
     delete_status := negb (fst c) |}.

(** The compiler takes both stages of script [v] and the linker takes the
    program they make. *)
Definition setup_accepted (P : Platform) (v : Script) : Prop :=
  let c1 := glsl_compile P VERTEX_SHADER vertexShaderSource in
  let c2 := glsl_compile P FRAGMENT_SHADER (fragmentShaderSource v) in
  fst c1 = true /\
  fst c2 = true /\
  fst (glsl_link P [ stage_object VERTEX_SHADER vertexShaderSource c1;
                     stage_object FRAGMENT_SHADER (fragmentShaderSource v) c2 ])
    = true.

(** Platforms to run the scripts on.  [accepting] takes every shader and
    every program; [rejecting_compiler] refuses every shader stage;
    [rejecting_linker] compiles every stage and refuses every program. *)
Definition accepting : Platform :=
  {| glsl_compile := fun _ _ => (true, EmptyString);
     glsl_link := fun _ => (true, EmptyString);
     attrib_location := fun _ name => if String.eqb name "aPosition" then 0%Z else 1%Z;
     uniform_location := fun _ name => Some (String.length name);
     clock := fun n => 1000 * INR n;
     canvas_width := 300;
     canvas_height := 150 |}.

Definition rejecting_compiler : Platform :=
  {| glsl_compile := fun _ _ => (false, "ERROR: 0:1: syntax error"%string);
     glsl_link := fun _ => (false, "missing shader"%string);
     attrib_location := fun _ _ => (-1)%Z;
     uniform_location := fun _ _ => None;
     clock := fun n => 1000 * INR n;
     canvas_width := 300;
     canvas_height := 150 |}.

Definition rejecting_linker : Platform :=
  {| glsl_compile := fun _ _ => (true, EmptyString);
     glsl_link := fun _ => (false, "varying mismatch"%string);
     attrib_location := fun _ _ => (-1)%Z;
     uniform_location := fun _ _ => None;
     clock := fun n => 1000 * INR n;
     canvas_width := 600;
     canvas_height := 300 |}.

Definition no_locations : programInfo.t :=
  {| programInfo.attribLocations :=
       {| attribLocations.vertexPosition := (-1)%Z;
          attribLocations.vertexColor := (-1)%Z |};
     programInfo.uniformLocations :=
       {| uniformLocations.projectionMatrix := None;
          uniformLocations.modelViewMatrix := None;
          uniformLocations.uColor := None |} |}.

Definition no_program : globals.t :=
  {| globals.shaderProgram := None;
     globals.programInfo := no_locations;
     globals.buffers := {| buffers.position := 0; buffers.indices := 1 |} |}.

(* ===================================================================== *)
(** ** The shaders and what reaches them *)
(* ===================================================================== *)

(** The arithmetic of the shading language the two shaders use: a matrix
    times a column vector and the componentwise product of two vectors. *)
Module glsl.

Definition mat4_vec4 (m v : list R) : list R :=
  [ mat4.get m 0 * nth 0 v 0 + mat4.get m 4 * nth 1 v 0
    + mat4.get m 8 * nth 2 v 0 + mat4.get m 12 * nth 3 v 0;
    mat4.get m 1 * nth 0 v 0 + mat4.get m 5 * nth 1 v 0
    + mat4.get m 9 * nth 2 v 0 + mat4.get m 13 * nth 3 v 0;
    mat4.get m 2 * nth 0 v 0 + mat4.get m 6 * nth 1 v 0
    + mat4.get m 10 * nth 2 v 0 + mat4.get m 14 * nth 3 v 0;
    mat4.get m 3 * nth 0 v 0 + mat4.get m 7 * nth 1 v 0
    + mat4.get m 11 * nth 2 v 0 + mat4.get m 15 * nth 3 v 0 ].

Definition vec4_vec4 (a b : list R) : list R :=
  [ nth 0 a 0 * nth 0 b 0; nth 1 a 0 * nth 1 b 0;
    nth 2 a 0 * nth 2 b 0; nth 3 a 0 * nth 3 b 0 ].

End glsl.

(** [main] of the vertex shader, the same in both scripts: it returns
    [gl_Position] and [vColor].  The product of the two matrices is taken
    first, as the expression is written. *)
Definition vertexShader_main
  (uModelViewMatrix uProjectionMatrix aPosition aColor : list R)
  : list R * list R :=
  (glsl.mat4_vec4 (mat4.mul uProjectionMatrix uModelViewMatrix) aPosition,
   aColor).

(** [main] of the fragment shader: it returns [gl_FragColor].  The one-face
    script has no [uColor]. *)
Definition fragmentShader_main (v : Script) (vColor uColor : list R)
  : list R :=
  match v with
  | script_js => vColor
  | part_000 => glsl.vec4_vec4 vColor uColor
  end.

(** What [vertexAttribPointer(_, size, FLOAT, false, stride, offset)] makes
    of the bound array for vertex [i]: [size] floats read [stride] bytes
    apart from byte [offset] on, completed to a [vec4] by (0, 0, 0, 1). *)
Definition fetch_vec4 (data : list R) (size : nat) (stride offset : Z)
  (i : nat) : list R :=
  let first := Z.to_nat ((offset + Z.of_nat i * stride) / sizeof FLOAT) in
  let component j default :=
    if (j <? size)%nat then nth (first + j) data 0 else default in
  [ component 0%nat 0; component 1%nat 0; component 2%nat 0; component 3%nat 1 ].

(** The two attributes of vertex [i], with the layout [drawScene] sets. *)
Definition aPosition (v : Script) (i : nat) : list R :=
  fetch_vec4 (positions v) 3 (6 * 4) 0 i.

Definition aColor (v : Script) (i : nat) : list R :=
  fetch_vec4 (positions v) 3 (6 * 4) (3 * 4) i.

(** The calls a frame makes; every other call belongs to the setup. *)
Definition frame_call (e : Event) : bool :=
  match e with
  | ClearColor _ _ _ _ | Clear _ | Enable _ | UseProgram _
  | UniformMatrix4fv _ _ _ | Uniform4fv _ _ | BindBuffer _ _
  | VertexAttribPointer _ _ _ _ _ _ | EnableVertexAttribArray _
  | DrawElements _ _ _ _ | RequestAnimationFrame _ => true
  | _ => false
  end.

(** The tints a trace uploads, with the uniform they go to. *)
Definition tint_upload (e : Event) : option (option nat * list R) :=
  match e with
  | Uniform4fv location value => Some (location, value)
  | _ => None
  end.

(** The readings of the clock a frame takes. *)
Definition readings_per_frame (v : Script) : nat :=
  match v with
  | script_js => 1
  | part_000 => 2
  end.

(** The calls the setup makes; [bindBuffer] is the only one a frame makes
    too. *)
Definition setup_call (e : Event) : bool :=
  match e with
  | CreateShader _ | ShaderSource _ _ | CompileShader _
  | GetShaderParameter _ _ | GetShaderInfoLog _ | DeleteShader _
  | CreateProgram | AttachShader _ _ | LinkProgram _
  | GetProgramParameter _ _ | GetProgramInfoLog _
  | GetAttribLocation _ _ | GetUniformLocation _ _
  | CreateBuffer | BindBuffer _ _ | BufferData _ _ _
  | ConsoleError _ _ => true
  | _ => false
  end.

(** The locations a trace asks for, with the program they are asked of. *)
Definition location_lookup (e : Event) : option (option nat * string) :=
  match e with
  | GetAttribLocation program name => Some (program, name)
  | GetUniformLocation program name => Some (program, name)
  | _ => None
  end.

(* ===================================================================== *)
(** ** Properties *)
(* ===================================================================== *)

Arguments mat4.rotate : simpl never.
Arguments mat4.translate : simpl never.
Arguments mat4.perspective : simpl never.
Arguments mat4.create : simpl never.

(** *** Runs and traces *)

(** Projects the fields of the state and steps through the calls of a
    script, leaving the maps of the context alone. *)
Tactic Notation "world_simpl" :=
  cbn [fst snd negb app
       next_name shaders programs buffers_data bound clock_reads
       frame_requests trace
       set_trace set_shaders set_programs set_next_name set_buffers_data
       set_bound set_clock_reads set_frame_requests
       shader_type shader_source compile_status shader_info_log delete_status
       attached_shaders link_status program_info_log].

Tactic Notation "world_simpl" "in" hyp(H) :=
  cbn [fst snd negb app
       next_name shaders programs buffers_data bound clock_reads
       frame_requests trace
       set_trace set_shaders set_programs set_next_name set_buffers_data
       set_bound set_clock_reads set_frame_requests
       shader_type shader_source compile_status shader_info_log delete_status
       attached_shaders link_status program_info_log]
    in H.

Tactic Notation "run_calls" :=
  unfold gl_createShader, gl_shaderSource, gl_compileShader,
    gl_getShaderParameter, gl_getShaderInfoLog, gl_deleteShader,
    gl_createProgram, gl_attachShader, gl_linkProgram,
    gl_getProgramParameter, gl_getProgramInfoLog,
    console_error, bind, emit, fresh, modify, gets, ret, throw;
  world_simpl.

Lemma world_eq (w1 w2 : World) :
  next_name w1 = next_name w2 ->
  shaders w1 = shaders w2 ->
  programs w1 = programs w2 ->
  buffers_data w1 = buffers_data w2 ->
  bound w1 = bound w2 ->
  clock_reads w1 = clock_reads w2 ->
  frame_requests w1 = frame_requests w2 ->
  trace w1 = trace w2 ->
  w1 = w2.
Proof. destruct w1, w2. cbn. intros. subst. reflexivity. Qed.

Ltac same_world :=
  f_equal; apply world_eq; world_simpl; rewrite <- ?app_assoc; reflexivity.

Lemma events_appended {A} (m : GLM A) (w : World) (L : list Event) :
  trace (after m w) = trace w ++ L -> events m w = L.
Proof.
  intros E. unfold events. rewrite E. apply drop_app_length.
Qed.

Lemma run_split {A} (m : GLM A) (w : World) :
  m w = (result m w, after m w).
Proof. unfold result, after. destruct (m w). reflexivity. Qed.

Lemma bind_normal {A B} (m : GLM A) (k : A -> GLM B) (w : World) (a : A) :
  result m w = Normal a -> bind m k w = k a (after m w).
Proof.
  unfold result, after, bind. destruct (m w) as [c w1]. cbn [fst snd].
  intros ->. reflexivity.
Qed.

Lemma bind_throw {A B} (m : GLM A) (k : A -> GLM B) (w : World) e :
  result m w = Throw e -> bind m k w = (Throw e, after m w).
Proof.
  unfold result, after, bind. destruct (m w) as [c w1]. cbn [fst snd].
  intros ->. reflexivity.
Qed.

(** *** One frame *)

(** [drawScene] as a whole: its calls, in order, the two bindings it leaves
    and the readings of the clock it takes.  The two-face script reads the
    clock a second time, for the tint. *)
Lemma drawScene_eq P v sp pi b w :
  drawScene P v sp pi b w =
  (Normal tt,
   set_trace
     (trace w ++
        [ ClearColor 0.0 0.0 0.0 1.0;
          Clear (Z.lor COLOR_BUFFER_BIT DEPTH_BUFFER_BIT);
          Enable DEPTH_TEST;
          UseProgram sp;
          UniformMatrix4fv
            (uniformLocations.projectionMatrix (programInfo.uniformLocations pi))
            false
            (mat4.perspective mat4.create (PI / 4) (aspect P) 0.1 100.0);
          UniformMatrix4fv
            (uniformLocations.modelViewMatrix (programInfo.uniformLocations pi))
            false
            (mat4.rotate (mat4.translate mat4.create [0.0; 0.0; -6.0])
               (rotation_angle (clock P (clock_reads w))) [0; 1; 0]) ]
        ++ match v with
           | script_js => []
           | part_000 =>
               let t := clock P (S (clock_reads w)) * 0.001 in
               [ Uniform4fv
                   (uniformLocations.uColor (programInfo.uniformLocations pi))
                   [ (sin t + 1) / 2; (cos t + 1) / 2;
                     (sin (t * 0.5) + 1) / 2; 1.0 ] ]
           end
        ++ [ BindBuffer ARRAY_BUFFER (buffers.position b);
             VertexAttribPointer
               (attribLocations.vertexPosition (programInfo.attribLocations pi))
               3 FLOAT false (6 * 4) 0;
             EnableVertexAttribArray
               (attribLocations.vertexPosition (programInfo.attribLocations pi));
             VertexAttribPointer
               (attribLocations.vertexColor (programInfo.attribLocations pi))
               3 FLOAT false (6 * 4) (3 * 4);
             EnableVertexAttribArray
               (attribLocations.vertexColor (programInfo.attribLocations pi));
             BindBuffer ELEMENT_ARRAY_BUFFER (buffers.indices b);
             DrawElements TRIANGLES (length (indices v)) UNSIGNED_SHORT 0 ])
     (set_bound
        (fun t =>
           if target_eqb t ELEMENT_ARRAY_BUFFER then Some (buffers.indices b)
           else if target_eqb t ARRAY_BUFFER then Some (buffers.position b)
                else bound w t)
        (set_clock_reads (clock_reads w + readings_per_frame v) w))).
Proof.
  unfold drawScene, getDynamicColor, Date_now, aspect, rotation_angle.
  unfold gl_clearColor, gl_clear, gl_enable, gl_useProgram,
    gl_uniformMatrix4fv, gl_uniform4fv, gl_bindBuffer, gl_vertexAttribPointer,
    gl_enableVertexAttribArray, gl_drawElements, bind, emit, modify, ret.
  destruct v; world_simpl; cbn [readings_per_frame];
    f_equal; apply world_eq; world_simpl; rewrite <- ?app_assoc;
    try reflexivity; lia.
Qed.

Lemma drawScene_trace P v sp pi b w :
  trace (after (drawScene P v sp pi b) w) =
  trace w ++
    [ ClearColor 0.0 0.0 0.0 1.0;
      Clear (Z.lor COLOR_BUFFER_BIT DEPTH_BUFFER_BIT);
      Enable DEPTH_TEST;
      UseProgram sp;
      UniformMatrix4fv
        (uniformLocations.projectionMatrix (programInfo.uniformLocations pi))
        false
        (mat4.perspective mat4.create (PI / 4) (aspect P) 0.1 100.0);
      UniformMatrix4fv
        (uniformLocations.modelViewMatrix (programInfo.uniformLocations pi))
        false
        (mat4.rotate (mat4.translate mat4.create [0.0; 0.0; -6.0])
           (rotation_angle (clock P (clock_reads w))) [0; 1; 0]) ]
    ++ match v with
       | script_js => []
       | part_000 =>
           let t := clock P (S (clock_reads w)) * 0.001 in
           [ Uniform4fv
               (uniformLocations.uColor (programInfo.uniformLocations pi))
               [ (sin t + 1) / 2; (cos t + 1) / 2;
                 (sin (t * 0.5) + 1) / 2; 1.0 ] ]
       end
    ++ [ BindBuffer ARRAY_BUFFER (buffers.position b);
         VertexAttribPointer
           (attribLocations.vertexPosition (programInfo.attribLocations pi))
           3 FLOAT false (6 * 4) 0;
         EnableVertexAttribArray
           (attribLocations.vertexPosition (programInfo.attribLocations pi));
         VertexAttribPointer
           (attribLocations.vertexColor (programInfo.attribLocations pi))
           3 FLOAT false (6 * 4) (3 * 4);
         EnableVertexAttribArray
           (attribLocations.vertexColor (programInfo.attribLocations pi));
         BindBuffer ELEMENT_ARRAY_BUFFER (buffers.indices b);
         DrawElements TRIANGLES (length (indices v)) UNSIGNED_SHORT 0 ].
Proof. unfold after. rewrite drawScene_eq. reflexivity. Qed.

Lemma getDynamicColor_eq P w :
  getDynamicColor P w =
  (Normal
     (let t := clock P (clock_reads w) * 0.001 in
      [ (sin t + 1) / 2; (cos t + 1) / 2; (sin (t * 0.5) + 1) / 2; 1.0 ]),
   set_clock_reads (S (clock_reads w)) w).
Proof. reflexivity. Qed.

(** [render] returns, whatever the program: one [drawScene], then the
    request for the next frame. *)
Lemma render_eq P v g w :
  render P v g w =
  (Normal tt,
   let w1 := after (drawScene P v (globals.shaderProgram g)
                      (globals.programInfo g) (globals.buffers g)) w in
   set_frame_requests (frame_requests w1 ++ [render_callback])
     (set_trace (trace w1 ++ [RequestAnimationFrame render_callback]) w1)).
Proof.
  unfold render. rewrite (bind_normal _ _ w tt).
  - unfold requestAnimationFrame, bind, emit, modify. world_simpl.
    reflexivity.
  - unfold result. now rewrite drawScene_eq.
Qed.

Lemma drawScene_requests P v sp pi b w :
  frame_requests (after (drawScene P v sp pi b) w) = frame_requests w.
Proof. unfold after. rewrite drawScene_eq. reflexivity. Qed.

Lemma render_requests P v g w :
  frame_requests (after (render P v g) w) =
  frame_requests w ++ [render_callback].
Proof.
  unfold after at 1. rewrite render_eq. cbn [snd]. world_simpl.
  now rewrite drawScene_requests.
Qed.

Lemma render_trace P v g w :
  trace (after (render P v g) w) =
  trace (after (drawScene P v (globals.shaderProgram g)
                  (globals.programInfo g) (globals.buffers g)) w)
  ++ [RequestAnimationFrame render_callback].
Proof. unfold after at 1. rewrite render_eq. reflexivity. Qed.

Lemma render_outline P v g w :
  exists L,
    trace (after (render P v g) w) = trace w ++ L /\
    omap outline L =
      [ Use (globals.shaderProgram g);
        Draw TRIANGLES (length (indices v)) UNSIGNED_SHORT 0 ].
Proof.
  rewrite render_trace, drawScene_trace. eexists. split.
  - rewrite <- !app_assoc. reflexivity.
  - destruct v; reflexivity.
Qed.

Lemma render_appends P v g w :
  trace (after (render P v g) w) = trace w ++ events (render P v g) w.
Proof.
  destruct (render_outline P v g w) as [L [T _]].
  now rewrite (events_appended _ _ _ T).
Qed.

Lemma render_objects P v g w :
  let w' := after (render P v g) w in
  next_name w' = next_name w /\ shaders w' = shaders w /\
  programs w' = programs w /\ buffers_data w' = buffers_data w.
Proof.
  unfold after at 1. rewrite render_eq. cbn [snd]. world_simpl.
  unfold after. rewrite drawScene_eq. world_simpl. tauto.
Qed.

Lemma render_clock P v g w :
  clock_reads (after (render P v g) w) =
  (clock_reads w + readings_per_frame v)%nat.
Proof.
  unfold after at 1. rewrite render_eq. cbn [snd]. world_simpl.
  unfold after. rewrite drawScene_eq. reflexivity.
Qed.

Lemma render_frame_calls P v g w :
  Forall (fun e => frame_call e = true) (events (render P v g) w).
Proof.
  assert (E := render_trace P v g w). rewrite drawScene_trace in E.
  rewrite <- app_assoc in E. apply events_appended in E. rewrite E.
  destruct v; cbn [app]; repeat constructor.
Qed.

(** *** The loop *)

Lemma bind_isolate {A B} (m : GLM A) (k : unit -> GLM B) (w : World) :
  bind (isolate m) k w = k tt (after m w).
Proof. reflexivity. Qed.

(** The callbacks of one repaint, whatever their number. *)
Lemma run_callbacks_run P v g cbs : forall w,
  let w' := after (run_callbacks P v g cbs) w in
  result (run_callbacks P v g cbs) w = Normal tt /\
  (next_name w' = next_name w /\ shaders w' = shaders w /\
   programs w' = programs w /\ buffers_data w' = buffers_data w) /\
  frame_requests w' = frame_requests w ++ cbs /\
  clock_reads w' = (clock_reads w + length cbs * readings_per_frame v)%nat /\
  exists L,
    trace w' = trace w ++ L /\
    Forall (fun e => frame_call e = true) L /\
    omap outline L =
      concat (repeat [ Use (globals.shaderProgram g);
                       Draw TRIANGLES (length (indices v)) UNSIGNED_SHORT 0 ]
                (length cbs)).
Proof.
  induction cbs as [|[] cbs IH]; intros w w'; subst w'.
  - cbn [run_callbacks]. unfold result, after, ret. cbn [fst snd length].
    rewrite !app_nil_r, Nat.add_0_r.
    split; [reflexivity|]. split; [tauto|]. split; [reflexivity|].
    split; [reflexivity|].
    exists []. rewrite app_nil_r. split; [reflexivity|].
    split; [constructor | reflexivity].
  - cbn [run_callbacks]. unfold result, after. rewrite bind_isolate.
    fold (result (run_callbacks P v g cbs) (after (render P v g) w)).
    fold (after (run_callbacks P v g cbs) (after (render P v g) w)).
    destruct (IH (after (render P v g) w))
      as [R [[N [S [Pr B]]] [F [C [L [T [A O]]]]]]].
    destruct (render_objects P v g w) as [N1 [S1 [Pr1 B1]]].
    destruct (render_outline P v g w) as [L1 [T1 O1]].
    pose proof (render_frame_calls P v g w) as A1.
    rewrite (events_appended _ _ _ T1) in A1.
    split; [exact R|].
    split; [repeat split; congruence|].
    split; [rewrite F, render_requests, <- app_assoc; reflexivity|].
    split; [rewrite C, render_clock; cbn [length]; lia|].
    exists (L1 ++ L). split; [rewrite T, T1, app_assoc; reflexivity|].
    split; [apply Forall_app; split; assumption|].
    rewrite omap_app, O1, O. reflexivity.
Qed.

Lemma animation_frame_eq P v g w :
  animation_frame P v g w =
  run_callbacks P v g (frame_requests w) (set_frame_requests [] w).
Proof. reflexivity. Qed.

Lemma animation_frame_after P v g w :
  after (animation_frame P v g) w =
  after (run_callbacks P v g (frame_requests w)) (set_frame_requests [] w).
Proof. unfold after. now rewrite animation_frame_eq. Qed.

Lemma animation_frame_full P v g w :
  let w' := after (animation_frame P v g) w in
  result (animation_frame P v g) w = Normal tt /\
  (next_name w' = next_name w /\ shaders w' = shaders w /\
   programs w' = programs w /\ buffers_data w' = buffers_data w) /\
  frame_requests w' = frame_requests w /\
  clock_reads w' =
    (clock_reads w + length (frame_requests w) * readings_per_frame v)%nat /\
  exists L,
    trace w' = trace w ++ L /\
    Forall (fun e => frame_call e = true) L /\
    omap outline L =
      concat (repeat [ Use (globals.shaderProgram g);
                       Draw TRIANGLES (length (indices v)) UNSIGNED_SHORT 0 ]
                (length (frame_requests w))).
Proof.
  intros w'. subst w'. unfold result, after. rewrite animation_frame_eq.
  exact (run_callbacks_run P v g (frame_requests w) (set_frame_requests [] w)).
Qed.

Lemma animation_frames_step P v g n w :
  animation_frames P v g (S n) w =
  animation_frames P v g n (after (animation_frame P v g) w).
Proof.
  cbn [animation_frames]. rewrite (bind_normal _ _ w tt); [reflexivity|].
  apply (animation_frame_full P v g w).
Qed.

Lemma animation_frames_run P v g n : forall w,
  let w' := after (animation_frames P v g n) w in
  result (animation_frames P v g n) w = Normal tt /\
  (next_name w' = next_name w /\ shaders w' = shaders w /\
   programs w' = programs w /\ buffers_data w' = buffers_data w) /\
  frame_requests w' = frame_requests w /\
  clock_reads w' =
    (clock_reads w + n * (length (frame_requests w) * readings_per_frame v))%nat /\
  exists L,
    trace w' = trace w ++ L /\
    Forall (fun e => frame_call e = true) L /\
    omap outline L =
      concat (repeat [ Use (globals.shaderProgram g);
                       Draw TRIANGLES (length (indices v)) UNSIGNED_SHORT 0 ]
                (n * length (frame_requests w))).
Proof.
  induction n as [|n IH]; intros w w'; subst w'.
  - cbn [animation_frames]. unfold result, after, ret. cbn [fst snd].
    split; [reflexivity|]. split; [tauto|]. split; [reflexivity|].
    split; [lia|].
    exists []. rewrite app_nil_r. split; [reflexivity|].
    split; [constructor | reflexivity].
  - unfold result, after. rewrite animation_frames_step.
    fold (result (animation_frames P v g n) (after (animation_frame P v g) w)).
    fold (after (animation_frames P v g n) (after (animation_frame P v g) w)).
    destruct (animation_frame_full P v g w)
      as [_ [[N1 [S1 [P1 B1]]] [F1 [C1 [L1 [T1 [A1 O1]]]]]]].
    destruct (IH (after (animation_frame P v g) w))
      as [R [[N2 [S2 [P2 B2]]] [F2 [C2 [L2 [T2 [A2 O2]]]]]]].
    split; [exact R|].
    split; [repeat split; congruence|].
    split; [congruence|].
    split; [rewrite C2, C1, F1; lia|].
    exists (L1 ++ L2). split; [rewrite T2, T1, app_assoc; reflexivity|].
    split; [apply Forall_app; split; assumption|].
    rewrite omap_app, O1, O2, F1. cbn [Nat.mul].
    rewrite repeat_app, concat_app. reflexivity.
Qed.

(** *** Pipeline setup *)

Lemma createShader_rejected P type source log w :
  glsl_compile P type source = (false, log) ->
  createShader P type source w =
  (Normal None,
   set_trace
     (trace w ++
        [ CreateShader type;
          ShaderSource (next_name w) source;
          CompileShader (next_name w);
          GetShaderParameter (next_name w) COMPILE_STATUS;
          GetShaderInfoLog (next_name w);
          ConsoleError "Shader compilation failed:" log;
          DeleteShader (next_name w) ])
     (set_shaders
        (<[next_name w :=
             {| shader_type := type; shader_source := source;
                compile_status := false; shader_info_log := log;
                delete_status := true |}]> (shaders w))
        (set_next_name (S (next_name w)) w))).
Proof.
  intros C. unfold createShader. run_calls.
  rewrite !alter_insert_eq, !lookup_insert_eq. world_simpl.
  rewrite C. world_simpl.
  rewrite !alter_insert_eq, !lookup_insert_eq. world_simpl.
  same_world.
Qed.

Lemma createShader_accepted P type source log w :
  glsl_compile P type source = (true, log) ->
  createShader P type source w =
  (Normal (Some (next_name w)),
   set_trace
     (trace w ++
        [ CreateShader type;
          ShaderSource (next_name w) source;
          CompileShader (next_name w);
          GetShaderParameter (next_name w) COMPILE_STATUS ])
     (set_shaders
        (<[next_name w :=
             {| shader_type := type; shader_source := source;
                compile_status := true; shader_info_log := log;
                delete_status := false |}]> (shaders w))
        (set_next_name (S (next_name w)) w))).
Proof.
  intros C. unfold createShader. run_calls.
  rewrite !alter_insert_eq, !lookup_insert_eq. world_simpl.
  rewrite C. world_simpl.
  same_world.
Qed.

(** The run of [createShader] for either answer of the compiler. *)
Lemma createShader_eq P type source w :
  let c := glsl_compile P type source in
  createShader P type source w =
  (Normal (if fst c then Some (next_name w) else None),
   set_trace
     (trace w
      ++ [ CreateShader type;
           ShaderSource (next_name w) source;
           CompileShader (next_name w);
           GetShaderParameter (next_name w) COMPILE_STATUS ]
      ++ (if fst c then []
          else [ GetShaderInfoLog (next_name w);
                 ConsoleError "Shader compilation failed:" (snd c);
                 DeleteShader (next_name w) ]))
     (set_shaders
        (<[next_name w := stage_object type source c]> (shaders w))
        (set_next_name (S (next_name w)) w))).
Proof.
  intros c. subst c. unfold stage_object.
  destruct (glsl_compile P type source) as [[] log] eqn:C; cbn [fst snd negb].
  - rewrite (createShader_accepted P type source log w C). reflexivity.
  - rewrite (createShader_rejected P type source log w C). reflexivity.
Qed.

(** The run of [initShaderProgram], whatever the compiler and the linker
    answer.  Both stages are compiled before anything is attached; a stage
    that was rejected makes its [attachShader] throw, and the linker is
    asked only when both stages compiled. *)
Lemma initShaderProgram_eq P vs fs w :
  let s1 := next_name w in
  let s2 := S (next_name w) in
  let p := S (S (next_name w)) in
  let c1 := glsl_compile P VERTEX_SHADER vs in
  let c2 := glsl_compile P FRAGMENT_SHADER fs in
  let l :=
    glsl_link P [ stage_object VERTEX_SHADER vs c1;
                  stage_object FRAGMENT_SHADER fs c2 ] in
  initShaderProgram P vs fs w =
  ((if fst c1
    then if fst c2
         then Normal (if fst l then Some p else None)
         else Throw TypeError
    else Throw TypeError),
   set_trace
     (trace w
      ++ [ CreateShader VERTEX_SHADER; ShaderSource s1 vs; CompileShader s1;
           GetShaderParameter s1 COMPILE_STATUS ]
      ++ (if fst c1 then []
          else [ GetShaderInfoLog s1;
                 ConsoleError "Shader compilation failed:" (snd c1);
                 DeleteShader s1 ])
      ++ [ CreateShader FRAGMENT_SHADER; ShaderSource s2 fs; CompileShader s2;
           GetShaderParameter s2 COMPILE_STATUS ]
      ++ (if fst c2 then []
          else [ GetShaderInfoLog s2;
                 ConsoleError "Shader compilation failed:" (snd c2);
                 DeleteShader s2 ])
      ++ [ CreateProgram ]
      ++ (if fst c1
          then AttachShader p (Some s1)
               :: (if fst c2
                   then [ AttachShader p (Some s2); LinkProgram p;
                          GetProgramParameter p LINK_STATUS ]
                        ++ (if fst l then []
                            else [ GetProgramInfoLog p;
                                   ConsoleError "Shader program linking failed:"
                                     (snd l) ])
                   else [ AttachShader p None ])
          else [ AttachShader p None ]))
     (set_programs
        (<[p := {| attached_shaders :=
                     if fst c1 then s1 :: (if fst c2 then [s2] else [])
                     else [];
                   link_status :=
                     if fst c1 then if fst c2 then fst l else false
                     else false;
                   program_info_log :=
                     if fst c1 then if fst c2 then snd l else EmptyString
                     else EmptyString |}]> (programs w))
        (set_shaders
           (<[s2 := stage_object FRAGMENT_SHADER fs c2]>
              (<[s1 := stage_object VERTEX_SHADER vs c1]> (shaders w)))
           (set_next_name (S (S (S (next_name w)))) w)))).
Proof.
  intros s1 s2 p c1 c2 l. subst l c1 c2 p s2. unfold stage_object.
  assert (N : S s1 <> s1) by lia.
  unfold initShaderProgram. unfold bind at 1.
  destruct (glsl_compile P VERTEX_SHADER vs) as [[] log1] eqn:C1;
    [ rewrite (createShader_accepted P _ _ log1 w C1)
    | rewrite (createShader_rejected P _ _ log1 w C1) ];
  unfold bind at 1;
  (destruct (glsl_compile P FRAGMENT_SHADER fs) as [[] log2] eqn:C2;
    [ rewrite (createShader_accepted P _ _ log2 _ C2)
    | rewrite (createShader_rejected P _ _ log2 _ C2) ]);
  run_calls; fold s1;
  rewrite ?alter_insert_eq, ?lookup_insert_eq; world_simpl;
  cbn [omap list_omap];
  rewrite ?lookup_insert_eq, ?(lookup_insert_ne _ (S s1) s1) by exact N;
  rewrite ?lookup_insert_eq;
  try (destruct (glsl_link P _) as [[] log3]; world_simpl;
       rewrite ?lookup_insert_eq; world_simpl);
  same_world.
Qed.

(** *** Geometry upload *)

Lemma initBuffers_eq v w :
  initBuffers v w =
  (Normal {| buffers.position := next_name w;
             buffers.indices := S (next_name w) |},
   set_trace
     (trace w
      ++ [ CreateBuffer;
           BindBuffer ARRAY_BUFFER (next_name w);
           BufferData ARRAY_BUFFER (Float32Array (positions v)) STATIC_DRAW;
           CreateBuffer;
           BindBuffer ELEMENT_ARRAY_BUFFER (S (next_name w));
           BufferData ELEMENT_ARRAY_BUFFER (Uint16Array (indices v))
             STATIC_DRAW ])
     (set_buffers_data
        (<[S (next_name w) := Uint16Array (indices v)]>
           (<[next_name w := Float32Array (positions v)]> (buffers_data w)))
        (set_bound
           (fun t =>
              if target_eqb t ELEMENT_ARRAY_BUFFER then Some (S (next_name w))
              else if target_eqb t ARRAY_BUFFER then Some (next_name w)
                   else bound w t)
           (set_next_name (S (S (next_name w))) w)))).
Proof.
  unfold initBuffers.
  unfold gl_createBuffer, gl_bindBuffer, gl_bufferData,
    bind, emit, fresh, modify, ret.
  world_simpl. cbn [target_eqb]. world_simpl.
  same_world.
Qed.

(** *** The top level of a script *)

(** With a program in hand the top level goes through: the locations, the
    buffers, the first frame. *)
Lemma main_eq P v w p :
  let init := initShaderProgram P vertexShaderSource (fragmentShaderSource v) in
  let w1 := after init w in
  let attrib name :=
    match programs w1 !! p with
    | Some o => attrib_location P o name
    | None => (-1)%Z
    end in
  let uniform name :=
    match programs w1 !! p with
    | Some o => uniform_location P o name
    | None => None
    end in
  let g :=
    {| globals.shaderProgram := Some p;
       globals.programInfo :=
         {| programInfo.attribLocations :=
              {| attribLocations.vertexPosition := attrib "aPosition"%string;
                 attribLocations.vertexColor := attrib "aColor"%string |};
            programInfo.uniformLocations :=
              {| uniformLocations.projectionMatrix :=
                   uniform "uProjectionMatrix"%string;
                 uniformLocations.modelViewMatrix :=
                   uniform "uModelViewMatrix"%string;
                 uniformLocations.uColor :=
                   match v with
                   | script_js => None
                   | part_000 => uniform "uColor"%string
                   end |} |};
       globals.buffers :=
         {| buffers.position := next_name w1;
            buffers.indices := S (next_name w1) |} |} in
  let w2 :=
    set_trace
      (trace w1
       ++ [ GetAttribLocation (Some p) "aPosition";
            GetAttribLocation (Some p) "aColor";
            GetUniformLocation (Some p) "uProjectionMatrix";
            GetUniformLocation (Some p) "uModelViewMatrix" ]
       ++ match v with
          | script_js => []
          | part_000 => [ GetUniformLocation (Some p) "uColor" ]
          end) w1 in
  result init w = Normal (Some p) ->
  main P v w = (Normal g, after (render P v g) (after (initBuffers v) w2)).
Proof.
  intros init w1 attrib uniform g w2 R.
  subst g w2 attrib uniform. unfold main. fold init.
  rewrite (bind_normal _ _ w (Some p) R). fold w1.
  unfold after. generalize w1. clear. intros w1.
  unfold gl_getAttribLocation, gl_getUniformLocation, bind, emit, gets, ret.
  world_simpl.
  destruct v;
    match goal with
    | |- context [ initBuffers ?v ?W ] =>
        match goal with
        | |- _ = (_, snd (_ (snd (initBuffers _ ?W')))) =>
            assert (EW : W = W')
              by (apply world_eq; world_simpl; rewrite <- ?app_assoc;
                  reflexivity);
            rewrite EW
        end
    end;
    rewrite initBuffers_eq; cbn [fst snd]; world_simpl;
    rewrite !render_eq; reflexivity.
Qed.

(** With [null] for a program the first lookup throws: no buffer is made
    and [render] is not reached. *)
Lemma main_null P v w :
  let init := initShaderProgram P vertexShaderSource (fragmentShaderSource v) in
  result init w = Normal None ->
  main P v w =
  (Throw TypeError,
   set_trace (trace (after init w) ++ [ GetAttribLocation None "aPosition" ])
     (after init w)).
Proof.
  intros init R. unfold main. fold init.
  rewrite (bind_normal _ _ w None R). reflexivity.
Qed.

(** When [initShaderProgram] throws, so does the script, there and then. *)
Lemma main_throw P v w e :
  let init := initShaderProgram P vertexShaderSource (fragmentShaderSource v) in
  result init w = Throw e ->
  main P v w = (Throw e, after init w).
Proof.
  intros init R. unfold main. fold init. now rewrite (bind_throw _ _ w e R).
Qed.

(** What [initShaderProgram] returns when everything is accepted. *)
Lemma accepted_program P v w :
  setup_accepted P v ->
  let init := initShaderProgram P vertexShaderSource (fragmentShaderSource v) in
  result init w = Normal (Some (S (S (next_name w)))) /\
  exists log,
    programs (after init w) !! S (S (next_name w)) =
      Some {| attached_shaders := [next_name w; S (next_name w)];
              link_status := true; program_info_log := log |}.
Proof.
  intros [C1 [C2 L]] init. subst init. unfold result, after.
  rewrite initShaderProgram_eq. world_simpl.
  rewrite C1, C2, L. split; [reflexivity|].
  eexists. rewrite lookup_insert_eq. reflexivity.
Qed.

Lemma initShaderProgram_calls P vs fs w :
  let c1 := glsl_compile P VERTEX_SHADER vs in
  let c2 := glsl_compile P FRAGMENT_SHADER fs in
  let w' := after (initShaderProgram P vs fs) w in
  clock_reads w' = clock_reads w /\
  frame_requests w' = frame_requests w /\
  exists L,
    trace w' = trace w ++ L /\
    Forall (fun e => setup_call e = true) L /\
    omap location_lookup L = [] /\
    omap outline L =
      Compile :: Compile :: (if fst c1 && fst c2 then [Link] else []).
Proof.
  intros c1 c2 w'. subst w' c1 c2. unfold after.
  rewrite initShaderProgram_eq. world_simpl.
  split; [reflexivity|]. split; [reflexivity|].
  eexists. split; [reflexivity|].
  destruct (fst (glsl_compile P VERTEX_SHADER vs)),
    (fst (glsl_compile P FRAGMENT_SHADER fs));
    try destruct (fst (glsl_link P _)); cbn [app andb];
    (split; [repeat constructor | split; reflexivity]).
Qed.

Lemma initBuffers_calls v w :
  clock_reads (after (initBuffers v) w) = clock_reads w /\
  frame_requests (after (initBuffers v) w) = frame_requests w /\
  trace (after (initBuffers v) w) =
    trace w
    ++ [ CreateBuffer;
         BindBuffer ARRAY_BUFFER (next_name w);
         BufferData ARRAY_BUFFER (Float32Array (positions v)) STATIC_DRAW;
         CreateBuffer;
         BindBuffer ELEMENT_ARRAY_BUFFER (S (next_name w));
         BufferData ELEMENT_ARRAY_BUFFER (Uint16Array (indices v))
           STATIC_DRAW ].
Proof.
  unfold after. rewrite initBuffers_eq. world_simpl. repeat split.
Qed.

(** The top level after an accepted setup: the calls of the setup, then the
    calls of the first frame. *)
Lemma main_split P v w :
  setup_accepted P v ->
  let p := S (S (next_name w)) in
  exists g Ls w3,
    result (main P v) w = Normal g /\
    globals.shaderProgram g = Some p /\
    trace (after (main P v) w) = trace w ++ Ls ++ events (render P v g) w3 /\
    Forall (fun e => setup_call e = true) Ls /\
    omap outline Ls = [ Compile; Compile; Link ] /\
    omap location_lookup Ls =
      [ (Some p, "aPosition"%string); (Some p, "aColor"%string);
        (Some p, "uProjectionMatrix"%string);
        (Some p, "uModelViewMatrix"%string) ]
      ++ match v with
         | script_js => []
         | part_000 => [ (Some p, "uColor"%string) ]
         end /\
    clock_reads w3 = clock_reads w /\
    clock_reads (after (main P v) w) =
      (clock_reads w + readings_per_frame v)%nat /\
    frame_requests (after (main P v) w) =
      frame_requests w ++ [render_callback].
Proof.
  intros Acc p.
  destruct (accepted_program P v w Acc) as [R _]. fold p in R.
  destruct (initShaderProgram_calls P vertexShaderSource
              (fragmentShaderSource v) w) as [C [F [L [T [A [O1 O2]]]]]].
  destruct Acc as [C1 [C2 _]]. rewrite C1, C2 in O2. cbn [andb] in O2.
  unfold result, after. rewrite (main_eq P v w p R). cbn [fst snd].
  match goal with
  | |- context [ after (render ?P ?v ?g) ?W ] => set (G := g); set (W3 := W)
  end.
  exists G.
  assert (TB : exists S,
             trace W3 = trace w ++ S /\
             Forall (fun e => setup_call e = true) S /\
             omap outline S = [ Compile; Compile; Link ] /\
             omap location_lookup S =
               [ (Some p, "aPosition"%string); (Some p, "aColor"%string);
                 (Some p, "uProjectionMatrix"%string);
                 (Some p, "uModelViewMatrix"%string) ]
               ++ match v with
                  | script_js => []
                  | part_000 => [ (Some p, "uColor"%string) ]
                  end /\
             clock_reads W3 = clock_reads w /\
             frame_requests W3 = frame_requests w).
  { subst W3.
    match goal with
    | |- context [ after (initBuffers v) ?W ] =>
        destruct (initBuffers_calls v W) as [CB [FB TB]]
    end.
    rewrite TB, CB, FB. world_simpl. rewrite T, C, F.
    eexists. split; [rewrite <- !app_assoc; reflexivity|].
    split; [|split; [|split; [|split; reflexivity]]].
    - apply Forall_app. split; [exact A|].
      destruct v; cbn [app]; repeat constructor.
    - rewrite omap_app, O2. destruct v; reflexivity.
    - rewrite omap_app, O1. destruct v; reflexivity. }
  destruct TB as [S [TS [AS [OS [LS [CS FS]]]]]].
  exists S, W3. rewrite render_appends, TS, <- app_assoc.
  split; [reflexivity|]. split; [reflexivity|]. split; [reflexivity|].
  split; [exact AS|]. split; [exact OS|]. split; [exact LS|].
  split; [exact CS|]. split.
  - now rewrite render_clock, CS.
  - now rewrite render_requests, FS.
Qed.

Lemma page_normal P v n w g :
  result (main P v) w = Normal g ->
  result (page P v n) w = result (animation_frames P v g n) (after (main P v) w)
  /\ after (page P v n) w = after (animation_frames P v g n) (after (main P v) w).
Proof.
  intros R. split; [unfold result at 1 | unfold after at 1]; unfold page;
    rewrite (bind_normal _ _ w g R); reflexivity.
Qed.

Lemma page_throw P v n w e :
  result (main P v) w = Throw e ->
  result (page P v n) w = Throw e /\
  after (page P v n) w = after (main P v) w.
Proof.
  intros R. split; [unfold result at 1 | unfold after at 1]; unfold page;
    rewrite (bind_throw _ _ w e R); reflexivity.
Qed.

(** The whole page after an accepted setup: two compilations, one link,
    then a frame for the script and one for each repaint. *)
Lemma page_outline P v n :
  setup_accepted P v ->
  result (page P v n) initial_world = Normal tt /\
  frame_requests (after (page P v n) initial_world) = [render_callback] /\
  omap outline (trace (after (page P v n) initial_world)) =
    [ Compile; Compile; Link ]
    ++ concat (repeat
         [ Use (Some 2%nat);
           Draw TRIANGLES (length (indices v)) UNSIGNED_SHORT 0 ] (S n)).
Proof.
  intros Acc.
  destruct (main_split P v initial_world Acc)
    as [g [Ls [w3 [R [G [T [_ [O [_ [_ [_ F]]]]]]]]]]].
  cbn [next_name initial_world] in G.
  destruct (page_normal P v n initial_world g R) as [PR PA].
  rewrite PR, PA.
  destruct (animation_frames_run P v g n (after (main P v) initial_world))
    as [R' [_ [F' [_ [L [TL [_ OL]]]]]]].
  split; [exact R'|]. split; [rewrite F', F; reflexivity|].
  rewrite TL, T. cbn [trace initial_world app].
  destruct (render_outline P v g w3) as [L3 [T3 O3]].
  rewrite (events_appended _ _ _ T3).
  rewrite !omap_app, O, O3, OL, F, G.
  cbn [frame_requests initial_world app length].
  rewrite Nat.mul_1_r. reflexivity.
Qed.

(** The whole page after a setup that failed: the script throws before its
    call of [render]; nothing is drawn and nothing is pending. *)
Lemma page_failed P v n :
  let c1 := glsl_compile P VERTEX_SHADER vertexShaderSource in
  let c2 := glsl_compile P FRAGMENT_SHADER (fragmentShaderSource v) in
  ~ setup_accepted P v ->
  result (page P v n) initial_world = Throw TypeError /\
  frame_requests (after (page P v n) initial_world) = [] /\
  clock_reads (after (page P v n) initial_world) = 0%nat /\
  omap outline (trace (after (page P v n) initial_world)) =
    Compile :: Compile :: (if fst c1 && fst c2 then [Link] else []).
Proof.
  intros c1 c2 NA.
  pose proof (initShaderProgram_eq P vertexShaderSource
                (fragmentShaderSource v) initial_world) as E.
  cbv zeta in E. fold c1 c2 in E.
  destruct (initShaderProgram_calls P vertexShaderSource
              (fragmentShaderSource v) initial_world)
    as [C [F [L [T [_ [_ O]]]]]].
  fold c1 c2 in O. cbn [clock_reads frame_requests trace initial_world app] in *.
  set (init := initShaderProgram P vertexShaderSource (fragmentShaderSource v))
    in *.
  assert (R : result init initial_world = Normal None \/
              result init initial_world = Throw TypeError).
  { unfold result. rewrite E. cbn [fst].
    destruct (fst c1) eqn:C1; [|now right].
    destruct (fst c2) eqn:C2; [|now right].
    match goal with
    | |- context [ fst ?l ] => destruct (fst l) eqn:Lk
    end; [|now left].
    exfalso. apply NA. unfold setup_accepted. fold c1 c2. tauto. }
  assert (LN : fst c1 && fst c2 = true ->
               result init initial_world = Normal None).
  { intros B. destruct R as [R|R]; [exact R|].
    unfold result in R. rewrite E in R. cbn [fst] in R.
    apply andb_prop in B as [B1 B2]. rewrite B1, B2 in R. discriminate. }
  destruct R as [R|R].
  - assert (B : fst c1 && fst c2 = true).
    { unfold result in R. rewrite E in R. cbn [fst] in R.
      destruct (fst c1), (fst c2); try discriminate; reflexivity. }
    assert (M := main_null P v initial_world R). fold init in M.
    assert (RM : result (main P v) initial_world = Throw TypeError)
      by (unfold result; now rewrite M).
    destruct (page_throw P v n initial_world _ RM) as [PR PA].
    rewrite PR, PA. unfold after at 1 2 3. rewrite M. cbn [snd]. world_simpl.
    rewrite F, C, T, omap_app, O, B. repeat split.
  - assert (B : fst c1 && fst c2 = false).
    { destruct (fst c1 && fst c2) eqn:B; [|reflexivity].
      rewrite (LN eq_refl) in R. discriminate. }
    assert (M := main_throw P v initial_world TypeError R). fold init in M.
    assert (RM : result (main P v) initial_world = Throw TypeError)
      by (unfold result; now rewrite M).
    destruct (page_throw P v n initial_world _ RM) as [PR PA].
    rewrite PR, PA. unfold after at 1 2 3. rewrite M. cbn [snd].
    rewrite F, C, T, O, B. repeat split.
Qed.

(** *** The matrices *)

Lemma unit_Y_length : sqrt (0 * 0 + 1 * 1 + 0 * 0) = 1.
Proof. replace (0 * 0 + 1 * 1 + 0 * 0) with 1 by ring. apply sqrt_1. Qed.

(** Rotating the translated identity about the unit Y axis gives the
    translation by [(0, 0, -6)] times the rotation about Y. *)
Lemma modelView_matrix (rad : R) :
  mat4.rotate (mat4.translate mat4.create [0.0; 0.0; -6.0]) rad [0; 1; 0] =
  mat4.mul (mat4.translation 0 0 (-6)) (mat4.rotationY rad).
Proof.
  unfold mat4.rotate. cbn [nth]. rewrite unit_Y_length.
  destruct (Rlt_dec 1 mat4.EPSILON) as [Hlt|_].
  - unfold mat4.EPSILON in Hlt. lra.
  - unfold mat4.mul, mat4.entry, mat4.translate, mat4.create,
      mat4.translation, mat4.rotationY, mat4.get.
    cbn [nth Nat.add Nat.mul].
    repeat (apply (f_equal2 cons); [ first [ field | lra ] | ]). reflexivity.
Qed.


(* ===================================================================== *)
(** ** The claims of the specification *)
(* ===================================================================== *)

(** C1.  Every iteration of the frame loop issues exactly one indexed
    triangle-list draw over the full index count, which is 6 in the one-face
    script and 12 in the two-face script; the iteration starts by setting
    the clear colour to (0,0,0,1), clearing with the colour bit set and
    enabling the depth test, all before the draw.  Over the whole page, when
    the setup is accepted, the script followed by [n] repaints draws [n + 1]
    times. *)
Theorem frame_draws_once P v g w n :
  (exists mid,
     events (render P v g) w =
       [ ClearColor 0.0 0.0 0.0 1.0;
         Clear (Z.lor COLOR_BUFFER_BIT DEPTH_BUFFER_BIT);
         Enable DEPTH_TEST ]
       ++ mid
       ++ [ DrawElements TRIANGLES (length (indices v)) UNSIGNED_SHORT 0;
            RequestAnimationFrame render_callback ]
     /\ omap outline mid = [ Use (globals.shaderProgram g) ]) /\
  Z.land (Z.lor COLOR_BUFFER_BIT DEPTH_BUFFER_BIT) COLOR_BUFFER_BIT
    = COLOR_BUFFER_BIT /\
  length (indices v) = match v with script_js => 6%nat | part_000 => 12%nat end /\
  (setup_accepted P v ->
   exists p,
     result (initShaderProgram P vertexShaderSource (fragmentShaderSource v))
       initial_world = Normal (Some p) /\
     omap outline (trace (after (page P v n) initial_world)) =
       [ Compile; Compile; Link ]
       ++ concat (repeat
            [ Use (Some p);
              Draw TRIANGLES (length (indices v)) UNSIGNED_SHORT 0 ] (S n))).
Proof.
  split; [| split; [reflexivity | split ]].
  - assert (E := render_trace P v g w). rewrite drawScene_trace in E.
    destruct v; cbn [app] in E; rewrite <- app_assoc in E;
      apply events_appended in E; rewrite E; cbn [app];
      match goal with
      | |- exists mid, ?L = _ /\ _ =>
          exists (take (length L - 5) (drop 3 L))
      end;
      (split; reflexivity).
  - destruct v; reflexivity.
  - intros Acc. exists 2%nat. split.
    + apply (accepted_program P v initial_world Acc).
    + apply (page_outline P v n Acc).
Qed.

Lemma accepting_accepted v : setup_accepted accepting v.
Proof. unfold setup_accepted. cbn [glsl_compile glsl_link accepting fst]. tauto. Qed.

Lemma frame_draws_once_witness :
  exists p,
    result (initShaderProgram accepting vertexShaderSource
              (fragmentShaderSource part_000)) initial_world = Normal (Some p) /\
    omap outline (trace (after (page accepting part_000 1) initial_world)) =
      [ Compile; Compile; Link ]
      ++ concat (repeat [ Use (Some p);
                          Draw TRIANGLES (length (indices part_000))
                            UNSIGNED_SHORT 0 ] 2).
Proof.
  apply (frame_draws_once accepting part_000 no_program initial_world 1).
  apply accepting_accepted.
Defined.

(** C2.  With [t] the clock reading in seconds, the tint has red
    (sin t + 1)/2, green (cos t + 1)/2 and blue (sin (0.5 t) + 1)/2, each
    between 0 and 1; it is the value the two-face script uploads in its
    frame. *)
Theorem dynamic_tint_channels P w :
  let t := clock P (clock_reads w) * 0.001 in
  exists red green blue alpha,
    result (getDynamicColor P) w = Normal [red; green; blue; alpha] /\
    red = (sin t + 1) / 2 /\
    green = (cos t + 1) / 2 /\
    blue = (sin (0.5 * t) + 1) / 2 /\
    0 <= red <= 1 /\ 0 <= green <= 1 /\ 0 <= blue <= 1 /\
    forall sp pi b w0,
      exists tint,
        result (getDynamicColor P) (set_clock_reads (S (clock_reads w0)) w0)
          = Normal tint /\
        In (Uniform4fv
              (uniformLocations.uColor (programInfo.uniformLocations pi)) tint)
           (events (drawScene P part_000 sp pi b) w0).
Proof.
  intros t. do 4 eexists. split; [reflexivity|].
  fold t.
  pose proof (SIN_bound t) as [S1 S2].
  pose proof (COS_bound t) as [C1 C2].
  pose proof (SIN_bound (t * 0.5)) as [B1 B2].
  repeat split; try lra.
  - now rewrite (Rmult_comm 0.5 t).
  - intros sp pi b w0. eexists. split; [reflexivity|].
    rewrite (events_appended _ _ _ (drawScene_trace P part_000 sp pi b w0)).
    rewrite !in_app_iff. right. left. left. reflexivity.
Qed.

(** C10.  The colour [getDynamicColor] returns has four components and the
    fourth is 1. *)
Theorem dynamic_tint_alpha P w :
  exists colour,
    result (getDynamicColor P) w = Normal colour /\
    length colour = 4%nat /\
    nth 3 colour 0 = 1.
Proof.
  eexists. split; [reflexivity|]. split; [reflexivity|].
  cbn [nth]. lra.
Qed.

(** C5.  In both scripts the vertex array holds a whole number of 6-float
    vertices and every index is below the number of vertices. *)
Theorem geometry_well_formed v :
  (length (positions v) mod 6 = 0)%nat /\
  Forall (fun i => (0 <= i < Z.of_nat (length (positions v) / 6))%Z)
    (indices v).
Proof.
  assert (L : length (positions v) =
              match v with script_js => 24%nat | part_000 => 48%nat end)
    by (destruct v; reflexivity).
  rewrite L.
  destruct v; (split; [reflexivity|]); unfold indices;
    repeat (constructor; [cbn; lia|]); constructor.
Qed.

(** C6.  Every frame ends with: bind the vertex buffer, point the position
    attribute at offset 0 and the colour attribute at offset 3 floats, both
    with 3 components and a stride of 6 floats, bind the index buffer, and
    draw the full index count as indexed triangles; no draw is issued before
    that one. *)
Theorem frame_attribute_layout P v sp pi b w :
  exists before,
    events (drawScene P v sp pi b) w =
      before
      ++ [ BindBuffer ARRAY_BUFFER (buffers.position b);
           VertexAttribPointer
             (attribLocations.vertexPosition (programInfo.attribLocations pi))
             3 FLOAT false (6 * sizeof FLOAT) 0;
           EnableVertexAttribArray
             (attribLocations.vertexPosition (programInfo.attribLocations pi));
           VertexAttribPointer
             (attribLocations.vertexColor (programInfo.attribLocations pi))
             3 FLOAT false (6 * sizeof FLOAT) (3 * sizeof FLOAT);
           EnableVertexAttribArray
             (attribLocations.vertexColor (programInfo.attribLocations pi));
           BindBuffer ELEMENT_ARRAY_BUFFER (buffers.indices b);
           DrawElements TRIANGLES (length (indices v)) UNSIGNED_SHORT 0 ] /\
    omap outline before = [ Use sp ].
Proof.
  rewrite (events_appended _ _ _ (drawScene_trace P v sp pi b w)).
  destruct v; cbn [app];
    match goal with
    | |- exists before, ?L = _ /\ _ => exists (take (length L - 7) L)
    end;
    (split; reflexivity).
Qed.

(** C3.  A stage the compiler rejects is noticed by the status query that
    follows [compileShader]; the diagnostic of the context is logged, the
    stage is deleted and [null] is returned.  A program the linker rejects
    is noticed by the status query that follows [linkProgram]; the
    diagnostic of the context is logged and the program is dropped: [null]
    is returned in its place. *)
Theorem setup_failures_reported :
  (forall P type source w,
     fst (glsl_compile P type source) = false ->
     let s := next_name w in
     let w' := after (createShader P type source) w in
     result (createShader P type source) w = Normal None /\
     events (createShader P type source) w =
       [ CreateShader type; ShaderSource s source;
         CompileShader s; GetShaderParameter s COMPILE_STATUS;
         GetShaderInfoLog s;
         ConsoleError "Shader compilation failed:"
           (snd (glsl_compile P type source));
         DeleteShader s ] /\
     shader_info_log <$> shaders w' !! s =
       Some (snd (glsl_compile P type source)) /\
     shader_discarded w' s) /\
  (forall P vs fs w,
     let p := S (S (next_name w)) in
     let c1 := glsl_compile P VERTEX_SHADER vs in
     let c2 := glsl_compile P FRAGMENT_SHADER fs in
     let l := glsl_link P [ stage_object VERTEX_SHADER vs c1;
                            stage_object FRAGMENT_SHADER fs c2 ] in
     let w' := after (initShaderProgram P vs fs) w in
     fst c1 = true -> fst c2 = true -> fst l = false ->
     result (initShaderProgram P vs fs) w = Normal None /\
     (exists before,
        events (initShaderProgram P vs fs) w =
          before
          ++ [ LinkProgram p; GetProgramParameter p LINK_STATUS;
               GetProgramInfoLog p;
               ConsoleError "Shader program linking failed:" (snd l) ]) /\
     link_status <$> programs w' !! p = Some false /\
     program_info_log <$> programs w' !! p = Some (snd l)).
Proof.
  split.
  - intros P type source w C s w'.
    destruct (glsl_compile P type source) as [ok log] eqn:E.
    cbn [fst] in C. subst ok. subst w' s.
    unfold events, shader_discarded. unfold result, after.
    rewrite (createShader_rejected P type source log w E). world_simpl.
    rewrite drop_app_length, lookup_insert_eq.
    split; [|split; [|split]]; reflexivity.
  - intros P vs fs w p c1 c2 l w' C1 C2 Lk. subst w'.
    unfold events. unfold result, after.
    rewrite initShaderProgram_eq. fold p c1 c2 l. world_simpl.
    rewrite C1, C2, Lk. rewrite drop_app_length, lookup_insert_eq.
    split; [reflexivity|]. split; [|split; reflexivity].
    cbn [app].
    match goal with
    | |- exists b, ?L = b ++ _ => exists (take (length L - 4) L)
    end.
    reflexivity.
Qed.

Lemma rejecting_linker_rejects v :
  let c1 := glsl_compile rejecting_linker VERTEX_SHADER vertexShaderSource in
  let c2 := glsl_compile rejecting_linker FRAGMENT_SHADER
              (fragmentShaderSource v) in
  fst c1 = true /\ fst c2 = true /\
  fst (glsl_link rejecting_linker
         [ stage_object VERTEX_SHADER vertexShaderSource c1;
           stage_object FRAGMENT_SHADER (fragmentShaderSource v) c2 ]) = false.
Proof. cbn [glsl_compile glsl_link rejecting_linker fst]. tauto. Qed.

Lemma setup_failures_reported_witness :
  (result (createShader rejecting_compiler FRAGMENT_SHADER "void main( {")
     initial_world = Normal None /\
   shader_discarded
     (after (createShader rejecting_compiler FRAGMENT_SHADER "void main( {")
        initial_world) 0) /\
  result (initShaderProgram rejecting_linker vertexShaderSource
            (fragmentShaderSource script_js)) initial_world = Normal None.
Proof.
  split.
  - pose proof (proj1 setup_failures_reported rejecting_compiler
                  FRAGMENT_SHADER "void main( {"%string initial_world
                  eq_refl) as [R [_ [_ D]]].
    split; [exact R | exact D].
  - apply (proj2 setup_failures_reported rejecting_linker
             vertexShaderSource (fragmentShaderSource script_js)
             initial_world); apply (rejecting_linker_rejects script_js).
Defined.

(** C4, as the scripts have it.  Nothing retries or repairs the setup: the
    page compiles each stage once and links at most once.  Neither [render]
    nor [drawScene] looks at the program: called with a [null] program,
    [render] still runs the draw sequence and registers the next frame.
    But after a setup that failed the page never gets to [render]: a
    rejected stage makes [attachShader] throw and a [null] program makes the
    first location lookup throw, so nothing is drawn and no frame is
    pending, whatever the number of repaints. *)
Theorem failed_setup_never_draws :
  (forall P v n,
     ~ setup_accepted P v ->
     result (page P v n) initial_world = Throw TypeError /\
     frame_requests (after (page P v n) initial_world) = [] /\
     omap outline (trace (after (page P v n) initial_world)) =
       Compile :: Compile
       :: (if fst (glsl_compile P VERTEX_SHADER vertexShaderSource)
              && fst (glsl_compile P FRAGMENT_SHADER (fragmentShaderSource v))
           then [Link] else [])) /\
  (forall P v n,
     result (initShaderProgram P vertexShaderSource (fragmentShaderSource v))
       initial_world = Normal None ->
     result (page P v n) initial_world = Throw TypeError /\
     last (trace (after (page P v n) initial_world)) =
       Some (GetAttribLocation None "aPosition")) /\
  (forall P v g w,
     globals.shaderProgram g = None ->
     result (render P v g) w = Normal tt /\
     omap outline (events (render P v g) w) =
       [ Use None; Draw TRIANGLES (length (indices v)) UNSIGNED_SHORT 0 ] /\
     frame_requests (after (render P v g) w) =
       frame_requests w ++ [render_callback]).
Proof.
  split; [|split].
  - intros P v n NA.
    destruct (page_failed P v n NA) as [R [F [_ O]]]. tauto.
  - intros P v n RN.
    assert (M := main_null P v initial_world RN).
    assert (RM : result (main P v) initial_world = Throw TypeError)
      by (unfold result; now rewrite M).
    destruct (page_throw P v n initial_world _ RM) as [PR PA].
    rewrite PR, PA. split; [reflexivity|].
    unfold after at 1. rewrite M. cbn [snd]. world_simpl.
    apply last_snoc.
  - intros P v g w Hg. split; [|split; [|apply render_requests]].
    + unfold result. now rewrite render_eq.
    + destruct (render_outline P v g w) as [L [T O]].
      rewrite (events_appended _ _ _ T), O, Hg. reflexivity.
Qed.

Lemma rejecting_linker_not_accepted v : ~ setup_accepted rejecting_linker v.
Proof.
  unfold setup_accepted. cbn [glsl_compile glsl_link rejecting_linker fst].
  intros [_ [_ H]]. discriminate.
Qed.

Lemma rejecting_linker_null v :
  result (initShaderProgram rejecting_linker vertexShaderSource
            (fragmentShaderSource v)) initial_world = Normal None.
Proof. unfold result. rewrite initShaderProgram_eq. reflexivity. Qed.

(** With a linker that refuses, the setup of the one-face script yields
    [null] and the page draws nothing: the script throws, only the setup has
    run and no frame is pending after two repaints. *)
Lemma null_program_never_drawn :
  result (initShaderProgram rejecting_linker vertexShaderSource
            (fragmentShaderSource script_js)) initial_world = Normal None /\
  result (page rejecting_linker script_js 2) initial_world = Throw TypeError /\
  omap outline (trace (after (page rejecting_linker script_js 2) initial_world))
    = [ Compile; Compile; Link ] /\
  frame_requests (after (page rejecting_linker script_js 2) initial_world) = [].
Proof.
  destruct (page_failed rejecting_linker script_js 2
              (rejecting_linker_not_accepted script_js)) as [R [F [_ O]]].
  split; [apply rejecting_linker_null|]. split; [exact R|].
  split; [exact O | exact F].
Qed.

Lemma failed_setup_never_draws_witness :
  result (page rejecting_linker part_000 3) initial_world = Throw TypeError /\
  frame_requests (after (page rejecting_linker part_000 3) initial_world) = [].
Proof.
  destruct (proj1 failed_setup_never_draws rejecting_linker part_000 3%nat
              (rejecting_linker_not_accepted part_000)) as [R [F _]].
  split; [exact R | exact F].
Defined.

(** C7.  The model-view matrix a frame uploads is the translation by
    (0,0,-6) times the rotation about Y by the angle of that frame; the
    angle does not decrease when the clock reading grows, it is 0 when the
    clock shows 0 and [t] when the clock shows [t] seconds, so it is pi at
    pi seconds. *)
Theorem modelView_rotation :
  (forall P v sp pi b w,
     exists projection,
       omap uniform_upload (events (drawScene P v sp pi b) w) =
         [ projection;
           (uniformLocations.modelViewMatrix (programInfo.uniformLocations pi),
            mat4.mul (mat4.translation 0 0 (-6))
              (mat4.rotationY (rotation_angle (clock P (clock_reads w))))) ]) /\
  (forall now1 now2, now1 <= now2 -> rotation_angle now1 <= rotation_angle now2) /\
  rotation_angle 0 = 0 /\
  (forall t, rotation_angle (1000 * t) = t) /\
  rotation_angle (1000 * PI) = PI.
Proof.
  split; [|split; [|split; [|split]]].
  - intros P v sp pi b w.
    rewrite (events_appended _ _ _ (drawScene_trace P v sp pi b w)).
    rewrite <- modelView_matrix.
    destruct v; eexists; reflexivity.
  - unfold rotation_angle. intros. lra.
  - unfold rotation_angle. lra.
  - unfold rotation_angle. intros. lra.
  - unfold rotation_angle. lra.
Qed.

Lemma modelView_rotation_witness :
  rotation_angle 0 <= rotation_angle (1000 * PI).
Proof.
  apply (proj1 (proj2 modelView_rotation) 0 (1000 * PI)).
  pose proof PI_RGT_0. lra.
Defined.

(** C8.  The projection matrix a frame uploads is the perspective matrix
    for a field of view of 45 degrees, the aspect ratio of the canvas, near
    plane 0.1 and far plane 100; two frames on canvases of the same aspect
    ratio upload the same matrix, whatever the script, the clock and the
    state of the context. *)
Theorem projection_depends_on_aspect :
  (forall P v sp pi b w,
     head (omap uniform_upload (events (drawScene P v sp pi b) w)) =
       Some
         (uniformLocations.projectionMatrix (programInfo.uniformLocations pi),
          mat4.perspective mat4.create (45 * (PI / 180)) (aspect P) 0.1 100.0)) /\
  (forall P1 P2 v1 v2 sp1 sp2 pi1 pi2 b1 b2 w1 w2,
     aspect P1 = aspect P2 ->
     snd <$> head (omap uniform_upload (events (drawScene P1 v1 sp1 pi1 b1) w1)) =
     snd <$> head (omap uniform_upload (events (drawScene P2 v2 sp2 pi2 b2) w2))).
Proof.
  assert (F : 45 * (PI / 180) = PI / 4) by lra.
  split.
  - intros P v sp pi b w.
    rewrite (events_appended _ _ _ (drawScene_trace P v sp pi b w)), F.
    reflexivity.
  - intros P1 P2 v1 v2 sp1 sp2 pi1 pi2 b1 b2 w1 w2 A.
    rewrite (events_appended _ _ _ (drawScene_trace P1 v1 sp1 pi1 b1 w1)).
    rewrite (events_appended _ _ _ (drawScene_trace P2 v2 sp2 pi2 b2 w2)).
    cbn [app omap list_omap uniform_upload head fmap option_fmap option_map snd].
    now rewrite A.
Qed.

Lemma same_aspect : aspect accepting = aspect rejecting_linker.
Proof. unfold aspect. cbn [canvas_width canvas_height accepting rejecting_linker]. lra. Qed.

Lemma projection_depends_on_aspect_witness :
  snd <$> head (omap uniform_upload
                  (events (drawScene accepting script_js None no_locations
                             (globals.buffers no_program)) initial_world)) =
  snd <$> head (omap uniform_upload
                  (events (drawScene rejecting_linker part_000 (Some 2%nat)
                             no_locations (globals.buffers no_program))
                     initial_world)).
Proof.
  apply (proj2 projection_depends_on_aspect). apply same_aspect.
Defined.

(** C9.  A stage whose source the compiler rejects makes [createShader]
    return [null], after logging the diagnostic of the context; whatever the
    source and the state, [createShader] returns and does not throw.
    [initShaderProgram] starts with [createShader] on the vertex source and
    then on the fragment source, whatever the first one gave; each compiles
    once and gives [null] when its source is rejected. *)
Theorem rejected_stage_is_null :
  (forall P type source w,
     fst (glsl_compile P type source) = false ->
     exists w',
       createShader P type source w = (Normal None, w') /\
       In (ConsoleError "Shader compilation failed:"
             (snd (glsl_compile P type source)))
          (events (createShader P type source) w)) /\
  (forall P type source w,
     exists stage, result (createShader P type source) w = Normal stage) /\
  (forall P vs fs w,
     let vertex := createShader P VERTEX_SHADER vs in
     let fragment := createShader P FRAGMENT_SHADER fs in
     let w1 := after vertex w in
     result vertex w =
       Normal (if fst (glsl_compile P VERTEX_SHADER vs)
               then Some (next_name w) else None) /\
     result fragment w1 =
       Normal (if fst (glsl_compile P FRAGMENT_SHADER fs)
               then Some (S (next_name w)) else None) /\
     omap outline (events vertex w) = [ Compile ] /\
     omap outline (events fragment w1) = [ Compile ] /\
     exists rest,
       events (initShaderProgram P vs fs) w =
         events vertex w ++ events fragment w1 ++ rest).
Proof.
  split; [|split].
  - intros P type source w C.
    destruct (glsl_compile P type source) as [ok log] eqn:E.
    cbn [fst] in C. subst ok.
    unfold events. unfold after.
    rewrite (createShader_rejected P type source log w E). world_simpl.
    eexists. split; [reflexivity|].
    rewrite drop_app_length. cbn [snd]. do 5 right. left. reflexivity.
  - intros P type source w. unfold result. rewrite createShader_eq.
    eexists. reflexivity.
  - intros P vs fs w vertex fragment w1. subst w1 vertex fragment.
    unfold events. unfold result, after.
    rewrite initShaderProgram_eq, !createShader_eq. world_simpl.
    rewrite !drop_app_length.
    split; [reflexivity|]. split; [reflexivity|].
    split; [destruct (fst (glsl_compile P VERTEX_SHADER vs)); reflexivity|].
    split; [destruct (fst (glsl_compile P FRAGMENT_SHADER fs)); reflexivity|].
    destruct (fst (glsl_compile P VERTEX_SHADER vs)),
      (fst (glsl_compile P FRAGMENT_SHADER fs));
      eexists; cbn [app]; reflexivity.
Qed.

Lemma rejected_stage_is_null_witness :
  exists w',
    createShader rejecting_compiler VERTEX_SHADER "void main( {" initial_world
      = (Normal None, w') /\
    In (ConsoleError "Shader compilation failed:" "ERROR: 0:1: syntax error")
       (events (createShader rejecting_compiler VERTEX_SHADER "void main( {")
          initial_world).
Proof.
  exact (proj1 rejected_stage_is_null rejecting_compiler VERTEX_SHADER
           "void main( {"%string initial_world eq_refl).
Defined.

(* ===================================================================== *)
(** ** Further properties of the scripts *)
(* ===================================================================== *)

(** *** What a frame leaves alone *)

(** X5.  Repaints allocate nothing and redo none of the setup: after any
    number of them, from any state, the context holds the same shaders,
    programs and buffer contents and has handed out no new name, and every
    call made is one of the calls of a frame. *)
Theorem frames_allocate_nothing P v g n w :
  let w' := after (animation_frames P v g n) w in
  next_name w' = next_name w /\
  shaders w' = shaders w /\
  programs w' = programs w /\
  buffers_data w' = buffers_data w /\
  Forall (fun e => frame_call e = true) (events (animation_frames P v g n) w).
Proof.
  intros w'. subst w'.
  destruct (animation_frames_run P v g n w)
    as [_ [[N [S [Pr B]]] [_ [_ [L [T [A _]]]]]]].
  rewrite (events_appended _ _ _ T). repeat split; assumption.
Qed.

(** X6.  A repaint calls [render] once for each callback that is pending and
    leaves as many pending as it found, so the loop neither stops nor piles
    up; with none pending it does nothing at all.  After a script whose
    setup was accepted and any number of repaints exactly one callback is
    pending. *)
Theorem repaint_keeps_the_loop :
  (forall P v g w,
     frame_requests (after (animation_frame P v g) w) = frame_requests w /\
     omap outline (events (animation_frame P v g) w) =
       concat (repeat [ Use (globals.shaderProgram g);
                        Draw TRIANGLES (length (indices v)) UNSIGNED_SHORT 0 ]
                 (length (frame_requests w)))) /\
  (forall P v g w,
     frame_requests w = [] -> after (animation_frame P v g) w = w) /\
  (forall P v n,
     setup_accepted P v ->
     frame_requests (after (page P v n) initial_world) = [render_callback]).
Proof.
  split; [|split].
  - intros P v g w.
    destruct (animation_frame_full P v g w) as [_ [_ [F [_ [L [T [_ O]]]]]]].
    rewrite (events_appended _ _ _ T). split; assumption.
  - intros P v g w F. rewrite animation_frame_after, F.
    cbn [run_callbacks]. unfold after, ret. cbn [snd].
    apply world_eq; world_simpl; try reflexivity. now rewrite F.
  - intros P v n Acc. apply (page_outline P v n Acc).
Qed.

Lemma repaint_keeps_the_loop_witness :
  after (animation_frame accepting script_js no_program) initial_world
    = initial_world /\
  frame_requests (after (page accepting script_js 4) initial_world)
    = [render_callback].
Proof.
  split.
  - apply (proj1 (proj2 repaint_keeps_the_loop)). reflexivity.
  - apply (proj2 (proj2 repaint_keeps_the_loop)). apply accepting_accepted.
Defined.

(** *** Geometry upload and pipeline setup *)

(** X1.  [initBuffers] copies the vertex array and the index array, element
    for element, into two new buffers with different names, returns those
    names, and leaves the vertex buffer bound to [ARRAY_BUFFER] and the
    index buffer to [ELEMENT_ARRAY_BUFFER]; the content of every other
    buffer is as before. *)
Theorem initBuffers_round_trip v w :
  let w' := after (initBuffers v) w in
  exists b,
    result (initBuffers v) w = Normal b /\
    buffers.position b = next_name w /\
    buffers.indices b = S (next_name w) /\
    buffers_data w' !! buffers.position b = Some (Float32Array (positions v)) /\
    buffers_data w' !! buffers.indices b = Some (Uint16Array (indices v)) /\
    bound w' ARRAY_BUFFER = Some (buffers.position b) /\
    bound w' ELEMENT_ARRAY_BUFFER = Some (buffers.indices b) /\
    forall k,
      k <> buffers.position b -> k <> buffers.indices b ->
      buffers_data w' !! k = buffers_data w !! k.
Proof.
  intros w'. subst w'. unfold result, after. rewrite initBuffers_eq.
  eexists. split; [reflexivity|].
  world_simpl. cbn [buffers.position buffers.indices target_eqb].
  rewrite lookup_insert_eq, lookup_insert_ne by lia.
  rewrite lookup_insert_eq.
  do 6 (split; [reflexivity|]).
  intros k K1 K2. now rewrite !lookup_insert_ne by congruence.
Qed.

Lemma initBuffers_round_trip_witness :
  buffers_data (after (initBuffers part_000) initial_world) !! 7%nat
  = buffers_data initial_world !! 7%nat.
Proof.
  destruct (initBuffers_round_trip part_000 initial_world)
    as [b [_ [B1 [B2 [_ [_ [_ [_ K]]]]]]]].
  apply K; [rewrite B1 | rewrite B2]; discriminate.
Defined.

(** X2.  When the compiler takes both stages and the linker takes the
    program, [initShaderProgram] returns the program, with the vertex stage
    and then the fragment stage attached; it makes thirteen calls, none of
    which reads a diagnostic, logs or deletes. *)
Theorem setup_succeeds P vs fs w :
  let s1 := next_name w in
  let s2 := S (next_name w) in
  let p := S (S (next_name w)) in
  let c1 := glsl_compile P VERTEX_SHADER vs in
  let c2 := glsl_compile P FRAGMENT_SHADER fs in
  let w' := after (initShaderProgram P vs fs) w in
  fst c1 = true ->
  fst c2 = true ->
  fst (glsl_link P [ stage_object VERTEX_SHADER vs c1;
                     stage_object FRAGMENT_SHADER fs c2 ]) = true ->
  result (initShaderProgram P vs fs) w = Normal (Some p) /\
  events (initShaderProgram P vs fs) w =
    [ CreateShader VERTEX_SHADER; ShaderSource s1 vs; CompileShader s1;
      GetShaderParameter s1 COMPILE_STATUS;
      CreateShader FRAGMENT_SHADER; ShaderSource s2 fs; CompileShader s2;
      GetShaderParameter s2 COMPILE_STATUS;
      CreateProgram; AttachShader p (Some s1); AttachShader p (Some s2);
      LinkProgram p; GetProgramParameter p LINK_STATUS ] /\
  attached_shaders <$> programs w' !! p = Some [s1; s2] /\
  link_status <$> programs w' !! p = Some true /\
  delete_status <$> shaders w' !! s1 = Some false /\
  delete_status <$> shaders w' !! s2 = Some false.
Proof.
  intros s1 s2 p c1 c2 w' C1 C2 Lk. subst w'.
  unfold events. unfold result, after. rewrite initShaderProgram_eq.
  fold s1 s2 p c1 c2. world_simpl.
  rewrite C1, C2. cbn [app]. rewrite Lk.
  rewrite drop_app_length.
  rewrite !lookup_insert_eq, lookup_insert_ne by (subst s1 s2; lia).
  rewrite lookup_insert_eq.
  unfold stage_object. cbn [fmap option_fmap option_map
    attached_shaders link_status delete_status].
  rewrite C1, C2. do 5 (split; [reflexivity|]). reflexivity.
Qed.

Lemma setup_succeeds_witness :
  result (initShaderProgram accepting vertexShaderSource
            (fragmentShaderSource part_000)) initial_world
  = Normal (Some 2%nat).
Proof.
  apply (setup_succeeds accepting vertexShaderSource
           (fragmentShaderSource part_000) initial_world); reflexivity.
Defined.

(** X3.  [initShaderProgram] ends in one of three ways.  When a stage was
    rejected it throws at the [attachShader] that is handed [null], after
    compiling both stages and creating the program, and never links.  When
    both stages compiled it attaches them, links, and returns the program if
    the link status is true and [null], after logging the diagnostic, if it
    is not.  A rejected stage is flagged for deletion and an accepted one
    is not. *)
Theorem setup_outcomes P vs fs w :
  let s1 := next_name w in
  let s2 := S (next_name w) in
  let p := S (S (next_name w)) in
  let c1 := glsl_compile P VERTEX_SHADER vs in
  let c2 := glsl_compile P FRAGMENT_SHADER fs in
  let l := glsl_link P [ stage_object VERTEX_SHADER vs c1;
                         stage_object FRAGMENT_SHADER fs c2 ] in
  let run := events (initShaderProgram P vs fs) w in
  let w' := after (initShaderProgram P vs fs) w in
  (fst c1 = false ->
   result (initShaderProgram P vs fs) w = Throw TypeError /\
   last run = Some (AttachShader p None) /\
   omap outline run = [ Compile; Compile ] /\
   attached_shaders <$> programs w' !! p = Some []) /\
  (fst c1 = true -> fst c2 = false ->
   result (initShaderProgram P vs fs) w = Throw TypeError /\
   last run = Some (AttachShader p None) /\
   omap outline run = [ Compile; Compile ] /\
   attached_shaders <$> programs w' !! p = Some [s1]) /\
  (fst c1 = true -> fst c2 = true ->
   result (initShaderProgram P vs fs) w =
     Normal (if fst l then Some p else None) /\
   omap outline run = [ Compile; Compile; Link ] /\
   attached_shaders <$> programs w' !! p = Some [s1; s2] /\
   link_status <$> programs w' !! p = Some (fst l)) /\
  delete_status <$> shaders w' !! s1 = Some (negb (fst c1)) /\
  delete_status <$> shaders w' !! s2 = Some (negb (fst c2)).
Proof.
  intros s1 s2 p c1 c2 l run w'. subst run w'.
  assert (N : s2 <> s1) by (subst s1 s2; lia).
  unfold events. unfold result, after. rewrite initShaderProgram_eq.
  fold s1 s2 p c1 c2 l. world_simpl.
  rewrite drop_app_length.
  rewrite !lookup_insert_eq, (lookup_insert_ne _ s2 s1) by exact N.
  rewrite lookup_insert_eq.
  cbn [fmap option_fmap option_map attached_shaders link_status].
  split; [|split; [|split; [|split; reflexivity]]].
  - intros C1. rewrite C1. split; [reflexivity|].
    destruct (fst c2); (split; [reflexivity|]); split; reflexivity.
  - intros C1 C2. rewrite C1, C2. repeat split.
  - intros C1 C2. rewrite C1, C2. split; [reflexivity|].
    destruct (fst l); (split; [reflexivity|]); split; reflexivity.
Qed.

Lemma setup_outcomes_witness :
  result (initShaderProgram rejecting_compiler vertexShaderSource
            (fragmentShaderSource script_js)) initial_world = Throw TypeError /\
  result (initShaderProgram rejecting_linker vertexShaderSource
            (fragmentShaderSource script_js)) initial_world = Normal None.
Proof.
  split.
  - exact (proj1 (proj1 (setup_outcomes rejecting_compiler vertexShaderSource
                           (fragmentShaderSource script_js) initial_world)
                    eq_refl)).
  - exact (proj1 (proj1 (proj2 (proj2 (setup_outcomes rejecting_linker
                                         vertexShaderSource
                                         (fragmentShaderSource script_js)
                                         initial_world)))
                    eq_refl eq_refl)).
Defined.

(** X4.  [initShaderProgram] takes the next three names, for the two stages
    and the program, and touches nothing else: every shader and program
    the context held under another name, the buffers, the bindings, the
    clock and the pending callbacks are as before. *)
Theorem setup_keeps_other_objects P vs fs w :
  let w' := after (initShaderProgram P vs fs) w in
  next_name w' = S (S (S (next_name w))) /\
  buffers_data w' = buffers_data w /\
  bound w' = bound w /\
  clock_reads w' = clock_reads w /\
  frame_requests w' = frame_requests w /\
  (forall k, k <> next_name w -> k <> S (next_name w) ->
             shaders w' !! k = shaders w !! k) /\
  (forall k, k <> S (S (next_name w)) -> programs w' !! k = programs w !! k).
Proof.
  intros w'. subst w'. unfold after. rewrite initShaderProgram_eq.
  world_simpl. do 5 (split; [reflexivity|]). split.
  - intros k K1 K2. now rewrite !lookup_insert_ne by congruence.
  - intros k K. now rewrite lookup_insert_ne by congruence.
Qed.

Lemma setup_keeps_other_objects_witness :
  shaders (after (initShaderProgram rejecting_compiler vertexShaderSource
                    (fragmentShaderSource script_js)) initial_world) !! 9%nat
  = shaders initial_world !! 9%nat.
Proof.
  apply (setup_keeps_other_objects rejecting_compiler vertexShaderSource
           (fragmentShaderSource script_js) initial_world); discriminate.
Defined.
(** *** The whole run, seen through a projection of its calls *)

Lemma omap_none {K} (f : Event -> option K) (c : Event -> bool) L :
  (forall e, c e = true -> f e = None) ->
  Forall (fun e => c e = true) L ->
  omap f L = [].
Proof.
  intros V A. induction A as [|e L H _ IH]; [reflexivity|].
  cbn [omap list_omap]. rewrite (V e H). exact IH.
Qed.

Lemma animation_frame_one P v g w :
  frame_requests w = [render_callback] ->
  after (animation_frame P v g) w =
  after (render P v g) (set_frame_requests [] w).
Proof. intros Q. rewrite animation_frame_after, Q. reflexivity. Qed.

Lemma frames_view {K} (f : Event -> option K) P v g (F : nat -> list K) :
  (forall w, omap f (events (render P v g) w) = F (clock_reads w)) ->
  forall n a w,
    frame_requests w = [render_callback] ->
    clock_reads w = (readings_per_frame v * a)%nat ->
    exists L,
      trace (after (animation_frames P v g n) w) = trace w ++ L /\
      omap f L = flat_map (fun j => F (readings_per_frame v * j)%nat) (seq a n).
Proof.
  intros HF. induction n as [|n IH]; intros a w Q C.
  - exists []. split; [|reflexivity].
    cbn [animation_frames]. unfold after, ret. cbn [snd]. now rewrite app_nil_r.
  - unfold after at 1. rewrite animation_frames_step.
    fold (after (animation_frames P v g n) (after (animation_frame P v g) w)).
    rewrite animation_frame_one by exact Q.
    set (w0 := set_frame_requests [] w).
    destruct (IH (S a) (after (render P v g) w0)) as [L [T O]].
    { now rewrite render_requests. }
    { rewrite render_clock. subst w0. world_simpl. rewrite C. lia. }
    exists (events (render P v g) w0 ++ L). split.
    + rewrite T, render_appends, <- app_assoc. reflexivity.
    + rewrite omap_app, O, HF. subst w0. world_simpl. rewrite C. reflexivity.
Qed.

Lemma page_view {K} (f : Event -> option K) P v n g (F : nat -> list K) :
  setup_accepted P v ->
  result (main P v) initial_world = Normal g ->
  (forall e, setup_call e = true -> f e = None) ->
  (forall w, omap f (events (render P v g) w) = F (clock_reads w)) ->
  omap f (trace (after (page P v n) initial_world)) =
  flat_map (fun j => F (readings_per_frame v * j)%nat) (seq 0 (S n)).
Proof.
  intros Acc R V HF.
  destruct (main_split P v initial_world Acc)
    as [g' [Ls [w3 [R' [_ [T [A [_ [_ [C3 [C Q]]]]]]]]]]].
  rewrite R in R'. injection R' as <-.
  destruct (page_normal P v n initial_world g R) as [_ PA]. rewrite PA.
  cbn [frame_requests initial_world app] in Q.
  destruct (frames_view f P v g F HF n 1
              (after (main P v) initial_world) Q) as [L [TL OL]].
  { rewrite C. cbn [clock_reads initial_world]. lia. }
  rewrite TL, T. cbn [trace initial_world app].
  rewrite !omap_app, OL, (omap_none f setup_call Ls V A), HF, C3.
  cbn [app seq flat_map clock_reads initial_world].
  rewrite Nat.mul_0_r. reflexivity.
Qed.

Lemma frame_calls_no_lookup e :
  frame_call e = true -> location_lookup e = None.
Proof. destruct e; cbn; congruence. Qed.

Lemma setup_calls_no_upload e :
  setup_call e = true -> uniform_upload e = None.
Proof. destruct e; cbn; congruence. Qed.

Lemma setup_calls_no_tint e :
  setup_call e = true -> tint_upload e = None.
Proof. destruct e; cbn; congruence. Qed.

(** X7.  After a setup that was accepted the frames of a page read the
    clock in turn: the one-face script once a frame, for the rotation; the
    two-face script twice a frame, first for the rotation and then for the
    tint, so that frame [j] rotates by reading [2j] and tints by reading
    [2j+1].  The setup reads no clock and uploads nothing, and the one-face
    script never uploads a tint.  After a setup that failed the clock is
    never read. *)
Theorem frame_clock_readings P v n :
  let k := readings_per_frame v in
  (setup_accepted P v ->
   exists g,
     result (main P v) initial_world = Normal g /\
     let u := programInfo.uniformLocations (globals.programInfo g) in
     clock_reads (after (page P v n) initial_world) = (k * S n)%nat /\
     omap uniform_upload (trace (after (page P v n) initial_world)) =
       flat_map
         (fun j =>
            [ (uniformLocations.projectionMatrix u,
               mat4.perspective mat4.create (PI / 4) (aspect P) 0.1 100.0);
              (uniformLocations.modelViewMatrix u,
               mat4.rotate (mat4.translate mat4.create [0.0; 0.0; -6.0])
                 (rotation_angle (clock P (k * j))) [0; 1; 0]) ])
         (seq 0 (S n)) /\
     omap tint_upload (trace (after (page P v n) initial_world)) =
       flat_map
         (fun j =>
            match v with
            | script_js => []
            | part_000 =>
                let t := clock P (S (k * j)) * 0.001 in
                [ (uniformLocations.uColor u,
                   [ (sin t + 1) / 2; (cos t + 1) / 2;
                     (sin (t * 0.5) + 1) / 2; 1.0 ]) ]
            end)
         (seq 0 (S n))) /\
  (~ setup_accepted P v ->
   clock_reads (after (page P v n) initial_world) = 0%nat).
Proof.
  intros k. subst k. split; [|intros NA; apply (page_failed P v n NA)].
  intros Acc.
  destruct (main_split P v initial_world Acc)
    as [g [Ls [w3 [R [_ [_ [_ [_ [_ [_ [C Q]]]]]]]]]]].
  exists g. split; [exact R|]. cbv zeta. split; [|split].
  - destruct (page_normal P v n initial_world g R) as [_ PA]. rewrite PA.
    destruct (animation_frames_run P v g n (after (main P v) initial_world))
      as [_ [_ [_ [C' _]]]].
    rewrite C', C, Q. cbn [clock_reads frame_requests initial_world app length].
    destruct v; cbn [readings_per_frame]; lia.
  - apply (page_view uniform_upload P v n g
             (fun c =>
                [ (uniformLocations.projectionMatrix
                     (programInfo.uniformLocations (globals.programInfo g)),
                   mat4.perspective mat4.create (PI / 4) (aspect P) 0.1 100.0);
                  (uniformLocations.modelViewMatrix
                     (programInfo.uniformLocations (globals.programInfo g)),
                   mat4.rotate (mat4.translate mat4.create [0.0; 0.0; -6.0])
                     (rotation_angle (clock P c)) [0; 1; 0]) ]) Acc R).
    + exact setup_calls_no_upload.
    + intros w.
      assert (E := render_trace P v g w).
      rewrite drawScene_trace in E. rewrite <- app_assoc in E.
      apply events_appended in E. rewrite E. destruct v; reflexivity.
  - apply (page_view tint_upload P v n g
             (fun c =>
                match v with
                | script_js => []
                | part_000 =>
                    let t := clock P (S c) * 0.001 in
                    [ (uniformLocations.uColor
                         (programInfo.uniformLocations (globals.programInfo g)),
                       [ (sin t + 1) / 2; (cos t + 1) / 2;
                         (sin (t * 0.5) + 1) / 2; 1.0 ]) ]
                end) Acc R).
    + exact setup_calls_no_tint.
    + intros w.
      assert (E := render_trace P v g w).
      rewrite drawScene_trace in E. rewrite <- app_assoc in E.
      apply events_appended in E. rewrite E. destruct v; reflexivity.
Qed.

Lemma frame_clock_readings_witness :
  (exists g,
     result (main accepting part_000) initial_world = Normal g /\
     clock_reads (after (page accepting part_000 3) initial_world) = 8%nat) /\
  clock_reads (after (page rejecting_linker part_000 3) initial_world) = 0%nat.
Proof.
  split.
  - destruct (proj1 (frame_clock_readings accepting part_000 3%nat)
                (accepting_accepted part_000)) as [g [R [C _]]].
    exists g. split; [exact R | exact C].
  - exact (proj2 (frame_clock_readings rejecting_linker part_000 3%nat)
             (rejecting_linker_not_accepted part_000)).
Defined.

(** X8.  After a setup that was accepted the locations are asked for once,
    at startup, of the program [initShaderProgram] returned: the two
    attributes, the two matrices and, in the two-face script, the tint.  No
    repaint asks again. *)
Theorem locations_looked_up_once P v n :
  setup_accepted P v ->
  exists p,
    result (initShaderProgram P vertexShaderSource (fragmentShaderSource v))
      initial_world = Normal (Some p) /\
    omap location_lookup (trace (after (page P v n) initial_world)) =
      [ (Some p, "aPosition"%string); (Some p, "aColor"%string);
        (Some p, "uProjectionMatrix"%string);
        (Some p, "uModelViewMatrix"%string) ]
      ++ match v with
         | script_js => []
         | part_000 => [ (Some p, "uColor"%string) ]
         end.
Proof.
  intros Acc.
  destruct (accepted_program P v initial_world Acc) as [RI _].
  exists (S (S (next_name initial_world))). split; [exact RI|].
  destruct (main_split P v initial_world Acc)
    as [g [Ls [w3 [R [_ [T [_ [_ [O _]]]]]]]]].
  destruct (page_normal P v n initial_world g R) as [_ PA]. rewrite PA.
  destruct (animation_frames_run P v g n (after (main P v) initial_world))
    as [_ [_ [_ [_ [L [TL [A _]]]]]]].
  rewrite TL, T. cbn [trace initial_world app].
  rewrite !omap_app, O.
  rewrite (omap_none location_lookup frame_call _ frame_calls_no_lookup
             (render_frame_calls P v _ w3)).
  rewrite (omap_none location_lookup frame_call L frame_calls_no_lookup A).
  now rewrite !app_nil_r.
Qed.

Lemma locations_looked_up_once_witness :
  exists p,
    result (initShaderProgram accepting vertexShaderSource
              (fragmentShaderSource script_js)) initial_world
      = Normal (Some p) /\
    omap location_lookup (trace (after (page accepting script_js 5)
                                   initial_world)) =
      [ (Some p, "aPosition"%string); (Some p, "aColor"%string);
        (Some p, "uProjectionMatrix"%string);
        (Some p, "uModelViewMatrix"%string) ].
Proof.
  apply (locations_looked_up_once accepting script_js 5%nat).
  apply accepting_accepted.
Defined.




(** *** What the shaders compute *)

Lemma fetch_position v i :
  aPosition v i =
  [ nth (6 * i) (positions v) 0; nth (6 * i + 1) (positions v) 0;
    nth (6 * i + 2) (positions v) 0; 1 ].
Proof.
  unfold aPosition, fetch_vec4. cbn [Nat.ltb Nat.leb sizeof].
  replace (0 + Z.of_nat i * (6 * 4))%Z with (Z.of_nat (6 * i) * 4)%Z by lia.
  rewrite Z.div_mul, Nat2Z.id by discriminate.
  now rewrite Nat.add_0_r.
Qed.

Lemma fetch_colour v i :
  aColor v i =
  [ nth (6 * i + 3) (positions v) 0; nth (6 * i + 4) (positions v) 0;
    nth (6 * i + 5) (positions v) 0; 1 ].
Proof.
  unfold aColor, fetch_vec4. cbn [Nat.ltb Nat.leb sizeof].
  replace (3 * 4 + Z.of_nat i * (6 * 4))%Z
    with (Z.of_nat (6 * i + 3) * 4)%Z by lia.
  rewrite Z.div_mul, Nat2Z.id by discriminate.
  rewrite Nat.add_0_r.
  replace (6 * i + 3 + 1)%nat with (6 * i + 4)%nat by lia.
  replace (6 * i + 3 + 2)%nat with (6 * i + 5)%nat by lia.
  reflexivity.
Qed.

(** X10.  Whatever the clock shows and whatever the aspect ratio, the
    vertex shader puts every vertex of either script in front of the camera
    and between the near and the far plane: the [w] of [gl_Position] lies
    between 4 and 8, and the [z] between [-w] and [w]. *)
Theorem vertices_stay_in_depth_range v i now ratio :
  (i < length (positions v) / 6)%nat ->
  let modelView :=
    mat4.rotate (mat4.translate mat4.create [0.0; 0.0; -6.0])
      (rotation_angle now) [0; 1; 0] in
  let projection :=
    mat4.perspective mat4.create (PI / 4) ratio 0.1 100.0 in
  let gl_Position :=
    fst (vertexShader_main modelView projection (aPosition v i) (aColor v i)) in
  4 <= nth 3 gl_Position 0 <= 8 /\
  - nth 3 gl_Position 0 <= nth 2 gl_Position 0 <= nth 3 gl_Position 0.
Proof.
  intros Hi modelView projection gl_Position.
  subst gl_Position projection modelView.
  rewrite modelView_matrix, fetch_position.
  pose proof (SIN_bound (rotation_angle now)) as [S1 S2].
  pose proof (COS_bound (rotation_angle now)) as [C1 C2].
  set (s := sin (rotation_angle now)) in *.
  set (c := cos (rotation_angle now)) in *.
  assert (L : length (positions v) =
              match v with script_js => 24%nat | part_000 => 48%nat end)
    by (destruct v; reflexivity).
  rewrite L in Hi.
  unfold vertexShader_main, glsl.mat4_vec4. cbn [fst nth].
  unfold mat4.mul at 1. cbn [mat4.get nth].
  unfold mat4.entry. unfold mat4.perspective. cbn [mat4.get nth Nat.add Nat.mul].
  unfold mat4.mul. cbn [mat4.get nth].
  unfold mat4.entry, mat4.translation, mat4.rotationY.
  cbn [mat4.get nth Nat.add Nat.mul]. fold s c.
  destruct v; cbn [Nat.div Nat.divmod fst] in Hi.
  - do 4 (destruct i as [|i]; [ cbn [positions nth Nat.mul Nat.add]; lra | ]).
    lia.
  - do 8 (destruct i as [|i]; [ cbn [positions nth Nat.mul Nat.add]; lra | ]).
    lia.
Qed.

Lemma vertices_stay_in_depth_range_witness :
  4 <= nth 3 (fst (vertexShader_main
                     (mat4.rotate (mat4.translate mat4.create [0.0; 0.0; -6.0])
                        (rotation_angle 1000) [0; 1; 0])
                     (mat4.perspective mat4.create (PI / 4) 2 0.1 100.0)
                     (aPosition part_000 5) (aColor part_000 5))) 0 <= 8.
Proof.
  apply (vertices_stay_in_depth_range part_000 5 1000 2).
  change (5 < 48 / 6)%nat. cbn [Nat.div Nat.divmod fst]. lia.
Defined.

(** X11.  The fragment shader of the two-face script multiplies the colour
    of the vertex by the tint of the frame: for a colour with channels
    between 0 and 1 every channel of the result stays between 0 and the
    channel it came from, and the alpha is unchanged.  The one-face script
    passes the colour on as it is.  The colour of a vertex is its three
    floats after the position, with alpha 1. *)
Theorem tint_only_darkens P w r g b a :
  0 <= r <= 1 -> 0 <= g <= 1 -> 0 <= b <= 1 ->
  exists tint,
    result (getDynamicColor P) w = Normal tint /\
    let out := fragmentShader_main part_000 [r; g; b; a] tint in
    0 <= nth 0 out 0 <= r /\
    0 <= nth 1 out 0 <= g /\
    0 <= nth 2 out 0 <= b /\
    nth 3 out 0 = a /\
    fragmentShader_main script_js [r; g; b; a] tint = [r; g; b; a] /\
    forall modelView projection v i,
      snd (vertexShader_main modelView projection (aPosition v i) (aColor v i))
      = [ nth (6 * i + 3) (positions v) 0;
          nth (6 * i + 4) (positions v) 0;
          nth (6 * i + 5) (positions v) 0; 1 ].
Proof.
  intros Hr Hg Hb. eexists. split.
  { unfold result. rewrite getDynamicColor_eq. reflexivity. }
  cbv zeta.
  unfold fragmentShader_main, glsl.vec4_vec4.
  cbn [fst snd nth].
  set (t := clock P (clock_reads w) * 0.001).
  assert (R0 : 0 <= (sin t + 1) / 2 <= 1)
    by (pose proof (SIN_bound t); lra).
  assert (G0 : 0 <= (cos t + 1) / 2 <= 1)
    by (pose proof (COS_bound t); lra).
  assert (B0 : 0 <= (sin (t * 0.5) + 1) / 2 <= 1)
    by (pose proof (SIN_bound (t * 0.5)); lra).
  set (tr := (sin t + 1) / 2) in *.
  set (tg := (cos t + 1) / 2) in *.
  set (tb := (sin (t * 0.5) + 1) / 2) in *.
  split; [split; nra|]. split; [split; nra|]. split; [split; nra|].
  split; [lra|]. split; [reflexivity|].
  intros modelView projection v i. unfold vertexShader_main. cbn [snd].
  apply fetch_colour.
Qed.

Lemma tint_only_darkens_witness :
  exists tint,
    result (getDynamicColor accepting) initial_world = Normal tint /\
    0 <= nth 0 (fragmentShader_main part_000 [1; 0; 0; 1] tint) 0 <= 1.
Proof.
  destruct (tint_only_darkens accepting initial_world 1 0 0 1)
    as [tint [R [H _]]]; try lra.
  exists tint. split; [exact R | exact H].
Defined.
